(** * PigMasterAPI: the breeding service, embedded and verified

    A shallow embedding of [BreedingService] (services/breeding.services.js):
    [createBreedingRecord], [updateBreedingRecord], [deleteBreedingRecord]
    and [createPigletRecord], over an explicit model of the tables they read
    and write.

    Modelling conventions.
    - The database is a record of tables, each table a list of rows in
      insertion order.  Every [DatabaseHelper.executeQuery] call is a read of
      or a write to that record, in the order of the source.  There is no
      transaction in the source, so a [throw] keeps every write made before
      it: the monad returns the store together with the outcome.
    - An instant is a number of milliseconds since the epoch.  Day arithmetic
      of the date library in UTC mode adds multiples of 86,400,000 ms.  The
      text "YYYY-MM-DD" produced by [getUTCDateString] is represented by the
      number of the UTC day, which determines it.
    - A date-valued input is seen through the two observations the code makes
      of it: its truthiness and what the date library parses it to.  The
      other fields of the bodies of [createBreedingRecord] and
      [updateBreedingRecord] have the types that the request schemas of
      utils/validator.js give them, each possibly absent or null; the entries
      of [createPigletRecord], whose route validates nothing, are JSON values.
    - [uuidv4()] is a counter in the store.
    - Of the column constraints of the schema only those that reject a value
      the service forwards unchecked are modelled: a value that is no date
      written to a date column, and NULL written to
      [pig_birth_history.birth_date].  Numbers are integers. *)

From Stdlib Require Import ZArith List String Ascii Bool Lia DecimalString
  DecimalNat.
Import ListNotations.
Local Open Scope string_scope.
Local Open Scope Z_scope.

(** ** JavaScript values *)

(** A nullable, typed field of a validated request body. *)
Inductive JsOpt (A : Type) : Type :=
| Undefined
| Null
| Val (a : A).
Arguments Undefined {A}.
Arguments Null {A}.
Arguments Val {A} a.

(** An untyped JSON value of an unvalidated request body. *)
Inductive JsVal : Type :=
| JUndefined
| JNull
| JBool (b : bool)
| JNum (n : Z)
| JStr (s : string).

(** A date-valued input: absent, null, a truthy value that is no date, or a
    value that the date library reads as the instant [t]. *)
Inductive DateVal : Type :=
| DUndefined
| DNull
| DInvalid
| DAt (t : Z).

Definition str_nonempty (s : string) : bool :=
  match s with EmptyString => false | _ => true end.

Definition truthy_str (v : JsOpt string) : bool :=
  match v with Val s => str_nonempty s | _ => false end.

Definition truthy_num (v : JsOpt Z) : bool :=
  match v with Val n => negb (n =? 0) | _ => false end.

Definition truthy_date (v : DateVal) : bool :=
  match v with DInvalid | DAt _ => true | _ => false end.

Definition truthy (v : JsVal) : bool :=
  match v with
  | JUndefined | JNull => false
  | JBool b => b
  | JNum n => negb (n =? 0)
  | JStr s => str_nonempty s
  end.

Definition JsVal_eqb (a b : JsVal) : bool :=
  match a, b with
  | JUndefined, JUndefined => true
  | JNull, JNull => true
  | JBool x, JBool y => Bool.eqb x y
  | JNum x, JNum y => x =? y
  | JStr x, JStr y => String.eqb x y
  | _, _ => false
  end.

(** [v === s] for a string [s] read from a row. *)
Definition strict_eq_str (s : string) (v : JsVal) : bool :=
  JsVal_eqb (JStr s) v.

(** What the driver sends for a value bound to a text parameter; [None] is
    SQL NULL. *)
Definition sql_text (v : JsVal) : option string :=
  match v with
  | JUndefined | JNull => None
  | JBool true => Some "true"
  | JBool false => Some "false"
  | JNum n => Some (NilZero.string_of_int (Z.to_int n))
  | JStr s => Some s
  end.

Definition opt_of {A} (v : JsOpt A) : option A :=
  match v with Val a => Some a | _ => None end.

Definition str_of (v : JsOpt string) : string :=
  match v with Val s => s | _ => "" end.

(** [a || b] on two nullable strings, as a column value. *)
Definition or_str (a : JsOpt string) (b : option string) : option string :=
  if truthy_str a then opt_of a else b.

Definition or_num (a : JsOpt Z) (b : option Z) : option Z :=
  if truthy_num a then opt_of a else b.

Definition or_null (v : JsVal) : JsVal := if truthy v then v else JNull.

Definition opt_eqb (s : string) (o : option string) : bool :=
  match o with Some x => String.eqb s x | None => false end.

(** ** Dates *)

Definition day_ms : Z := 86400000.

(** [d.add(n, "day")] on a UTC date. *)
Definition add_days (t n : Z) : Z := t + n * day_ms.

(** [getUTCDateString]: the UTC calendar day of an instant. *)
Definition getUTCDateString (t : Z) : Z := t / day_ms.

(** [formatLocalDate(_, "Africa/Nairobi")]: the calendar day in East Africa
    Time, three hours ahead of UTC all year. *)
Definition formatLocalDate (t : Z) : Z := (t + 3 * 3600000) / day_ms.

(** [dayjs(v)] for a value that is not [undefined]; [None] is an invalid date. *)
Definition dayjs (v : DateVal) : option Z :=
  match v with DAt t => Some t | _ => None end.

(** ** Tables *)

Inductive Severity : Type := low | medium | high.

Inductive AlertStatus : Type := pending | sent | completed | rejected.

Definition AlertStatus_eqb (a b : AlertStatus) : bool :=
  match a, b with
  | pending, pending | sent, sent | completed, completed
  | rejected, rejected => true
  | _, _ => false
  end.

(** The text of an alert, kept as its template and the values spliced in;
    a calendar day stands for its "MMMM D, YYYY" rendering. *)
Inductive AlertText : Type :=
| CustomText (s : string)
| BreedingRecordedText (sow boar : string) (mating expected : Z)
| AddNestingBoxText (sow pen : string) (day : Z)
| CheckBirthText (sow pen : string) (day : Z)
| FosteringText (sow pen : string) (day : Z)
| RemoveNestingBoxText (sow pen : string) (day : Z)
| WeanPigletsText (sow pen : string) (day : Z)
| RelocatePigletsText (sow : option string) (day : option Z).

Record Farm : Type := {
  fm_id : string;
  fm_is_deleted : bool }.

Record Pig : Type := {
  pig_id : string;
  pig_farm_id : string;
  pig_gender : string;
  pig_pen_id : option string;
  is_pregnant : bool;
  pregnancy_start_date : option Z;
  pig_expected_birth_date : option Z;
  pig_actual_birth_date : option Z;
  pig_is_deleted : bool }.

Record BreedingRecord : Type := {
  br_id : string;
  br_farm_id : string;
  br_sow_id : string;
  br_boar_id : string;
  br_mating_date : Z;
  br_expected_birth_date : option Z;
  br_actual_birth_date : option Z;
  br_number_of_piglets : option Z;
  br_notes : option string;
  br_alert_date : option Z;
  br_is_deleted : bool }.

Record PigletRecord : Type := {
  pl_id : string;
  pl_breeding_record_id : option string;
  pl_farm_id : string;
  pl_piglet_number : option string;
  pl_birth_weight : JsVal;
  pl_gender : JsVal;
  pl_color : JsVal;
  pl_status : JsVal;
  pl_weaning_date : option Z;
  pl_parent_male_id : JsVal;
  pl_parent_female_id : JsVal;
  pl_notes : JsVal;
  pl_is_deleted : bool }.

Record PigBirthHistory : Type := {
  bh_id : string;
  bh_farm_id : string;
  bh_sow_id : option string;
  bh_breeding_record_id : option string;
  bh_birth_date : Z;
  bh_number_of_piglets : Z;
  bh_notes : JsVal;
  bh_is_deleted : bool }.

Record Alert : Type := {
  al_id : string;
  al_name : string;
  al_start_date : Z;
  al_type : string;
  al_severity : Severity;
  al_message : AlertText;
  al_status : AlertStatus;
  al_farm_id : string;
  al_user_id : string;
  al_pig_id : option string;
  al_pen_id : option string;
  al_notify_on : list Z;
  al_is_deleted : bool }.

Inductive NotificationText : Type :=
| LowLitterOver3Generations (sow : string)
| LitterSize (sow : string) (n : Z).

Record Notification : Type := {
  nt_id : string;
  nt_user_id : string;
  nt_type : string;
  nt_title : string;
  nt_message : NotificationText;
  nt_data_sow_id : string;
  nt_data_farm_id : string;
  nt_priority : Severity }.

Record Store : Type := {
  farms : list Farm;
  pigs : list Pig;
  breeding_records : list BreedingRecord;
  piglet_records : list PigletRecord;
  pig_birth_history : list PigBirthHistory;
  alerts : list Alert;
  notifications : list Notification;
  uuid_counter : nat;
  now : Z }.

Definition set_pigs (f : list Pig -> list Pig) (s : Store) : Store :=
  {| farms := farms s; pigs := f (pigs s);
     breeding_records := breeding_records s;
     piglet_records := piglet_records s;
     pig_birth_history := pig_birth_history s; alerts := alerts s;
     notifications := notifications s; uuid_counter := uuid_counter s;
     now := now s |}.

Definition set_breeding_records
  (f : list BreedingRecord -> list BreedingRecord) (s : Store) : Store :=
  {| farms := farms s; pigs := pigs s;
     breeding_records := f (breeding_records s);
     piglet_records := piglet_records s;
     pig_birth_history := pig_birth_history s; alerts := alerts s;
     notifications := notifications s; uuid_counter := uuid_counter s;
     now := now s |}.

Definition set_piglet_records
  (f : list PigletRecord -> list PigletRecord) (s : Store) : Store :=
  {| farms := farms s; pigs := pigs s;
     breeding_records := breeding_records s;
     piglet_records := f (piglet_records s);
     pig_birth_history := pig_birth_history s; alerts := alerts s;
     notifications := notifications s; uuid_counter := uuid_counter s;
     now := now s |}.

Definition set_pig_birth_history
  (f : list PigBirthHistory -> list PigBirthHistory) (s : Store) : Store :=
  {| farms := farms s; pigs := pigs s;
     breeding_records := breeding_records s;
     piglet_records := piglet_records s;
     pig_birth_history := f (pig_birth_history s); alerts := alerts s;
     notifications := notifications s; uuid_counter := uuid_counter s;
     now := now s |}.

Definition set_alerts (f : list Alert -> list Alert) (s : Store) : Store :=
  {| farms := farms s; pigs := pigs s;
     breeding_records := breeding_records s;
     piglet_records := piglet_records s;
     pig_birth_history := pig_birth_history s; alerts := f (alerts s);
     notifications := notifications s; uuid_counter := uuid_counter s;
     now := now s |}.

Definition set_notifications
  (f : list Notification -> list Notification) (s : Store) : Store :=
  {| farms := farms s; pigs := pigs s;
     breeding_records := breeding_records s;
     piglet_records := piglet_records s;
     pig_birth_history := pig_birth_history s; alerts := alerts s;
     notifications := f (notifications s); uuid_counter := uuid_counter s;
     now := now s |}.

Definition bump_uuid (s : Store) : Store :=
  {| farms := farms s; pigs := pigs s;
     breeding_records := breeding_records s;
     piglet_records := piglet_records s;
     pig_birth_history := pig_birth_history s; alerts := alerts s;
     notifications := notifications s; uuid_counter := S (uuid_counter s);
     now := now s |}.

(** ** The monad of the service: a store and exceptions, without rollback *)

Inductive Error : Type :=
| ValidationError (message : string)
| DatabaseError (message : string).

Definition error_message (e : Error) : string :=
  match e with ValidationError m | DatabaseError m => m end.

Inductive Outcome (A : Type) : Type :=
| Return (a : A)
| Throw (e : Error).
Arguments Return {A} a.
Arguments Throw {A} e.

Definition DB (A : Type) : Type := Store -> Store * Outcome A.

Definition ret {A} (a : A) : DB A := fun s => (s, Return a).

Definition throw {A} (e : Error) : DB A := fun s => (s, Throw e).

Definition bind {A B} (c : DB A) (k : A -> DB B) : DB B :=
  fun s =>
    match c s with
    | (s1, Return a) => k a s1
    | (s1, Throw e) => (s1, Throw e)
    end.

(** A SELECT: a function of the store. *)
Definition query {A} (f : Store -> A) : DB A := fun s => (s, Return (f s)).

(** An INSERT or UPDATE that the database accepts. *)
Definition exec (f : Store -> Store) : DB unit := fun s => (f s, Return tt).

Declare Scope db_scope.
Delimit Scope db_scope with db.
Notation "x <- c ;; k" := (bind c (fun x => k))
  (at level 100, c at next level, right associativity) : db_scope.
Notation "c ;;; k" := (bind c (fun _ => k))
  (at level 100, right associativity) : db_scope.
Local Open Scope db_scope.

(** [for (const x of l) { await f(x) }] *)
Fixpoint forEach {A} (f : A -> DB unit) (l : list A) : DB unit :=
  match l with
  | [] => ret tt
  | x :: rest => f x ;;; forEach f rest
  end.

Definition uuid_text (n : nat) : string :=
  "uuid-" ++ NilEmpty.string_of_uint (Nat.to_uint n).

Definition uuidv4 : DB string :=
  fun s => (bump_uuid s, Return (uuid_text (uuid_counter s))).

(** ORDER BY [key] DESC, rows with equal keys in table order. *)
Fixpoint insert_desc {A} (key : A -> Z) (x : A) (l : list A) : list A :=
  match l with
  | [] => [x]
  | y :: rest =>
      if key y <? key x then x :: l else y :: insert_desc key x rest
  end.

Definition order_by_desc {A} (key : A -> Z) (l : list A) : list A :=
  fold_right (insert_desc key) [] l.

(** ** AlertService.createAlert *)

Record AlertSpec : Type := {
  as_farm_id : string;
  as_user_id : string;
  as_pig_id : option string;
  as_pen_id : option string;
  as_name : string;
  as_alert_start_date : option Z;
  as_alert_type : string;
  as_severity : Severity;
  as_message : AlertText;
  as_notify_on : list (option Z) }.

Fixpoint all_dates (l : list (option Z)) : option (list Z) :=
  match l with
  | [] => Some []
  | None :: _ => None
  | Some d :: rest =>
      match all_dates rest with
      | Some ds => Some (d :: ds)
      | None => None
      end
  end.

(** The row persisted for a spec whose dates are valid. *)
Definition alert_row (id : string) (spec : AlertSpec) (start : Z)
  (notify : list Z) : Alert :=
  {| al_id := id; al_name := as_name spec; al_start_date := start;
     al_type := as_alert_type spec; al_severity := as_severity spec;
     al_message := as_message spec; al_status := pending;
     al_farm_id := as_farm_id spec; al_user_id := as_user_id spec;
     al_pig_id := as_pig_id spec; al_pen_id := as_pen_id spec;
     al_notify_on := notify; al_is_deleted := false |}.

(** Modelled from the spec: services/alerts.services.js is not part of the
    sources at hand.  Section 4.2: "createAlert(spec) ... Persists a new Alert
    with status pending.  Side effect only; no return value beyond the created
    identity."  A date of the spec is a UTC day, [None] when the caller built
    it from an invalid date; the table declares both date columns NOT NULL of
    a date type, so such a spec is rejected by the insert. *)
Definition createAlert (spec : AlertSpec) : DB string :=
  match as_alert_start_date spec, all_dates (as_notify_on spec) with
  | Some start, Some notify =>
      id <- uuidv4 ;;
      exec (set_alerts (fun t => app t [alert_row id spec start notify])) ;;;
      ret id
  | _, _ => throw (DatabaseError "invalid input syntax for type date")
  end.

(** ** Queries shared by the operations *)

Definition is_some {A} (o : option A) : bool :=
  match o with Some _ => true | None => false end.

(** [pigs WHERE pig_id = $1 AND farm_id = $2 AND is_deleted = 0] *)
Definition pig_rows (pid farm : string) (s : Store) : list Pig :=
  filter (fun p => String.eqb (pig_id p) pid && String.eqb (pig_farm_id p) farm
                   && negb (pig_is_deleted p)) (pigs s).

(** [... AND gender = $3] *)
Definition pig_rows_of_gender (pid farm gender : string) (s : Store)
  : list Pig :=
  filter (fun p => String.eqb (pig_gender p) gender) (pig_rows pid farm s).

(** [penResult.rows[0]?.pen_id] *)
Definition pen_of (pid farm : string) (s : Store) : option string :=
  match pig_rows pid farm s with
  | p :: _ => pig_pen_id p
  | [] => None
  end.

(** [pen_id || "unknown"] *)
Definition pen_or_unknown (pen : option string) : string :=
  match pen with
  | Some p => if str_nonempty p then p else "unknown"
  | None => "unknown"
  end.

Definition birth_key (r : BreedingRecord) : Z :=
  match br_actual_birth_date r with Some t => t | None => 0 end.

(** [breeding_records WHERE sow_id = $1 AND farm_id = $2 AND
    actual_birth_date IS NOT NULL AND is_deleted = 0
    ORDER BY actual_birth_date DESC] *)
Definition resolved_records (sow farm : string) (s : Store)
  : list BreedingRecord :=
  order_by_desc birth_key
    (filter (fun r => String.eqb (br_sow_id r) sow
                      && String.eqb (br_farm_id r) farm
                      && is_some (br_actual_birth_date r)
                      && negb (br_is_deleted r)) (breeding_records s)).

(** [breeding_records WHERE id = $1 AND farm_id = $2 AND is_deleted = 0] *)
Definition live_record (recordId farmId : string) (r : BreedingRecord) : bool :=
  String.eqb (br_id r) recordId && String.eqb (br_farm_id r) farmId
  && negb (br_is_deleted r).

(** ** createBreedingRecord *)

Record BreedingData : Type := {
  bd_farm_id : JsOpt string;
  bd_sow_id : JsOpt string;
  bd_boar_id : JsOpt string;
  bd_mating_date : DateVal;
  bd_expected_birth_date : DateVal;
  bd_notes : JsOpt string;
  bd_immediate_notify_date : DateVal;
  bd_alert_message : JsOpt string }.

(** The six scheduled alerts: the nesting box, then the birth checks of days
    110 to 114. *)
Definition scheduled_alerts (farm_id userId sow_id : string)
  (pen_id : option string) (matingDateUTC : Z) : list AlertSpec :=
  {| as_farm_id := farm_id; as_user_id := userId; as_pig_id := Some sow_id;
     as_pen_id := pen_id;
     as_name := "Add Nesting Box for " ++ sow_id;
     as_alert_start_date :=
       Some (getUTCDateString (add_days matingDateUTC 110));
     as_alert_type := "breeding"; as_severity := high;
     as_message :=
       AddNestingBoxText sow_id (pen_or_unknown pen_id)
         (formatLocalDate (add_days matingDateUTC 110));
     as_notify_on :=
       [Some (getUTCDateString (add_days matingDateUTC 109));
        Some (getUTCDateString (add_days matingDateUTC 110))] |}
  :: map (fun i =>
       {| as_farm_id := farm_id; as_user_id := userId;
          as_pig_id := Some sow_id; as_pen_id := pen_id;
          as_name := "Check Birth for " ++ sow_id;
          as_alert_start_date :=
            Some (getUTCDateString (add_days matingDateUTC (110 + i)));
          as_alert_type := "birth"; as_severity := high;
          as_message :=
            CheckBirthText sow_id (pen_or_unknown pen_id)
              (formatLocalDate (add_days matingDateUTC (110 + i)));
          as_notify_on :=
            [Some (getUTCDateString (add_days matingDateUTC (109 + i)));
             Some (getUTCDateString (add_days matingDateUTC (110 + i)))] |})
       (map Z.of_nat (seq 0 5)).

Definition createBreedingRecord (breedingData : BreedingData)
  (userId : string) : DB BreedingRecord :=
  let mating_date := bd_mating_date breedingData in
  let expected_birth_date := bd_expected_birth_date breedingData in
  let notes := bd_notes breedingData in
  let immediate_notify_date := bd_immediate_notify_date breedingData in
  let alert_message := bd_alert_message breedingData in
  if negb (truthy_str (bd_farm_id breedingData))
     || negb (truthy_str (bd_sow_id breedingData))
     || negb (truthy_str (bd_boar_id breedingData))
     || negb (truthy_date mating_date)
     || negb (truthy_date expected_birth_date)
  then throw (ValidationError "Missing required breeding record fields")
  else
  let farm_id := str_of (bd_farm_id breedingData) in
  let sow_id := str_of (bd_sow_id breedingData) in
  let boar_id := str_of (bd_boar_id breedingData) in
  match dayjs mating_date with
  | None =>
      throw (ValidationError "Invalid mating_date format; must be a valid date")
  | Some matingDateUTC =>
  match dayjs expected_birth_date with
  | None =>
      throw (ValidationError
               "Invalid expected_birth_date format; must be a valid date")
  | Some expectedBirthDateUTC =>
  if truthy_date immediate_notify_date
     && negb (is_some (dayjs immediate_notify_date))
  then throw (ValidationError
                "Invalid immediate_notify_date format; must be YYYY-MM-DD")
  else
  let notifyOnDate :=
    match dayjs immediate_notify_date with
    | Some t => getUTCDateString t
    | None => getUTCDateString matingDateUTC
    end in
  (* Validate sow and boar *)
  sowResult <- query (pig_rows_of_gender sow_id farm_id "female") ;;
  if (List.length sowResult =? 0)%nat
  then throw (ValidationError "Sow not found or invalid") else
  boarResult <- query (pig_rows_of_gender boar_id farm_id "male") ;;
  if (List.length boarResult =? 0)%nat
  then throw (ValidationError "Boar not found or invalid") else
  (* Check if the sow was served within the last week post-weaning *)
  recentSowService <- query (fun s => firstn 1 (resolved_records sow_id farm_id s)) ;;
  match
    match recentSowService with
    | r :: _ =>
        let lastBirth := birth_key r in
        let weaningDate := add_days lastBirth 42 in
        let oneWeekAfterWeaning := add_days weaningDate 7 in
        matingDateUTC <? oneWeekAfterWeaning
    | [] => false
    end
  with
  | true =>
      throw (ValidationError "Sow cannot be served within 1 week of weaning")
  | false =>
  (* Set alert date for pregnancy confirmation *)
  let alertDate := add_days matingDateUTC 21 in
  (* Insert breeding record *)
  id <- uuidv4 ;;
  let breedingRecord :=
    {| br_id := id; br_farm_id := farm_id; br_sow_id := sow_id;
       br_boar_id := boar_id; br_mating_date := matingDateUTC;
       br_expected_birth_date := Some expectedBirthDateUTC;
       br_actual_birth_date := None; br_number_of_piglets := None;
       br_notes := or_str notes None; br_alert_date := Some alertDate;
       br_is_deleted := false |} in
  exec (set_breeding_records (fun t => app t [breedingRecord])) ;;;
  (* Get pen_id for alerts *)
  pen_id <- query (pen_of sow_id farm_id) ;;
  (* Create immediate breeding success alert *)
  let defaultMessage :=
    BreedingRecordedText sow_id boar_id (formatLocalDate matingDateUTC)
      (formatLocalDate expectedBirthDateUTC) in
  createAlert
    {| as_farm_id := farm_id; as_user_id := userId; as_pig_id := Some sow_id;
       as_pen_id := pen_id;
       as_name := "Breeding Success for " ++ sow_id ++ " and " ++ boar_id;
       as_alert_start_date := Some (getUTCDateString matingDateUTC);
       as_alert_type := "breeding"; as_severity := medium;
       as_message :=
         if truthy_str alert_message then CustomText (str_of alert_message)
         else defaultMessage;
       as_notify_on := [Some notifyOnDate] |} ;;;
  (* Create scheduled alerts (trigger day before and on the date) *)
  forEach (fun alert => createAlert alert ;;; ret tt)
    (scheduled_alerts farm_id userId sow_id pen_id matingDateUTC) ;;;
  ret breedingRecord
  end end end.

(** ** updateBreedingRecord *)

Record UpdateData : Type := {
  ud_actual_birth_date : DateVal;
  ud_number_of_piglets : JsOpt Z;
  ud_notes : JsOpt string }.

Definition culling_notification (id userId : string)
  (text : NotificationText) (sow farmId : string) : Notification :=
  {| nt_id := id; nt_user_id := userId; nt_type := "culling_alert";
     nt_title := "Sow Culling Alert"; nt_message := text;
     nt_data_sow_id := sow; nt_data_farm_id := farmId;
     nt_priority := high |}.

(** [pastRecords.rows.map(r => r.number_of_piglets || 0).filter(n => n > 0)] *)
Definition litters_of (pastRecords : list BreedingRecord) : list Z :=
  filter (fun n => 0 <? n)
    (map (fun r => match br_number_of_piglets r with
                   | Some n => n
                   | None => 0
                   end) pastRecords).

(** [litters.length >= 3 && litters.every(n => n < 5)] *)
Definition low_over_3_generations (litters : list Z) : bool :=
  (3 <=? List.length litters)%nat && forallb (fun n => n <? 5) litters.

(** [number_of_piglets < 5 || number_of_piglets > 10] *)
Definition litter_out_of_range (n : Z) : bool := (n <? 5) || (10 <? n).

(** [UPDATE pigs SET is_pregnant = false, pregnancy_start_date = NULL,
    expected_birth_date = NULL, actual_birth_date = $1 WHERE ...] *)
Definition clear_pregnancy (birth : option Z) (sow farmId : string) (p : Pig)
  : Pig :=
  if String.eqb (pig_id p) sow && String.eqb (pig_farm_id p) farmId
     && negb (pig_is_deleted p)
  then {| pig_id := pig_id p; pig_farm_id := pig_farm_id p;
          pig_gender := pig_gender p; pig_pen_id := pig_pen_id p;
          is_pregnant := false; pregnancy_start_date := None;
          pig_expected_birth_date := None;
          pig_actual_birth_date :=
            match birth with Some t => Some t | None => pig_actual_birth_date p end;
          pig_is_deleted := pig_is_deleted p |}
  else p.

Definition with_status (st : AlertStatus) (a : Alert) : Alert :=
  {| al_id := al_id a; al_name := al_name a; al_start_date := al_start_date a;
     al_type := al_type a; al_severity := al_severity a;
     al_message := al_message a; al_status := st; al_farm_id := al_farm_id a;
     al_user_id := al_user_id a; al_pig_id := al_pig_id a;
     al_pen_id := al_pen_id a; al_notify_on := al_notify_on a;
     al_is_deleted := al_is_deleted a |}.

(** [UPDATE alerts SET status = $st WHERE pig_id = $1 AND alert_type IN
    $types AND status = 'pending' AND is_deleted = false] *)
Definition resolve_alert (st : AlertStatus) (types : list string)
  (sow : string) (a : Alert) : Alert :=
  if opt_eqb sow (al_pig_id a)
     && existsb (String.eqb (al_type a)) types
     && AlertStatus_eqb (al_status a) pending
     && negb (al_is_deleted a)
  then with_status st a else a.

Definition post_birth_alerts (farmId userId sow : string)
  (pen_id : option string) (actualBirthDateUTC : Z) : list AlertSpec :=
  [ {| as_farm_id := farmId; as_user_id := userId; as_pig_id := Some sow;
       as_pen_id := pen_id;
       as_name := "Fostering Check for " ++ sow;
       as_alert_start_date :=
         Some (getUTCDateString (add_days actualBirthDateUTC 4));
       as_alert_type := "birth"; as_severity := medium;
       as_message :=
         FosteringText sow (pen_or_unknown pen_id)
           (formatLocalDate (add_days actualBirthDateUTC 4));
       as_notify_on :=
         [Some (getUTCDateString (add_days actualBirthDateUTC 3));
          Some (getUTCDateString (add_days actualBirthDateUTC 4))] |};
    {| as_farm_id := farmId; as_user_id := userId; as_pig_id := Some sow;
       as_pen_id := pen_id;
       as_name := "Remove Nesting Box for " ++ sow;
       as_alert_start_date :=
         Some (getUTCDateString (add_days actualBirthDateUTC 20));
       as_alert_type := "birth"; as_severity := medium;
       as_message :=
         RemoveNestingBoxText sow (pen_or_unknown pen_id)
           (formatLocalDate (add_days actualBirthDateUTC 20));
       as_notify_on :=
         [Some (getUTCDateString (add_days actualBirthDateUTC 19));
          Some (getUTCDateString (add_days actualBirthDateUTC 20))] |};
    {| as_farm_id := farmId; as_user_id := userId; as_pig_id := Some sow;
       as_pen_id := pen_id;
       as_name := "Wean Piglets for " ++ sow;
       as_alert_start_date :=
         Some (getUTCDateString (add_days actualBirthDateUTC 42));
       as_alert_type := "birth"; as_severity := high;
       as_message :=
         WeanPigletsText sow (pen_or_unknown pen_id)
           (formatLocalDate (add_days actualBirthDateUTC 42));
       as_notify_on :=
         [Some (getUTCDateString (add_days actualBirthDateUTC 41));
          Some (getUTCDateString (add_days actualBirthDateUTC 42))] |} ].

(** The culling rules: the second is reached only when the first did not
    fire ([if ... else if ...]). *)
Definition culling_check (breedingRecord : BreedingRecord)
  (farmId userId : string) (number_of_piglets : Z) : DB unit :=
  pastRecords <-
    query (fun s =>
      firstn 3 (resolved_records (br_sow_id breedingRecord) farmId s)) ;;
  let litters := litters_of pastRecords in
  if low_over_3_generations litters then
    notificationId <- uuidv4 ;;
    exec (set_notifications (fun t => app t [
      culling_notification notificationId userId
        (LowLitterOver3Generations (br_sow_id breedingRecord))
        (br_sow_id breedingRecord) farmId]))
  else if litter_out_of_range number_of_piglets then
    notificationId <- uuidv4 ;;
    exec (set_notifications (fun t => app t [
      culling_notification notificationId userId
        (LitterSize (br_sow_id breedingRecord) number_of_piglets)
        (br_sow_id breedingRecord) farmId]))
  else ret tt.

(** The cascade run when both a birth date and a litter size are given. *)
Definition birth_cascade (breedingRecord : BreedingRecord)
  (farmId userId : string) (actual_birth_date : DateVal)
  (number_of_piglets : Z) : DB unit :=
  let sow := br_sow_id breedingRecord in
  culling_check breedingRecord farmId userId number_of_piglets ;;;
  (* Update sow's pregnancy status *)
  match dayjs actual_birth_date with
  | None => throw (DatabaseError "invalid input syntax for type date")
  | Some actualBirthDateUTC =>
      exec (set_pigs (map (clear_pregnancy (Some actualBirthDateUTC) sow farmId))) ;;;
      (* Cancel pregnancy-related alerts *)
      exec (set_alerts (map (resolve_alert completed ["breeding"] sow))) ;;;
      (* Get pen_id for alerts *)
      pen_id <- query (pen_of sow farmId) ;;
      (* Create scheduled post-birth alerts *)
      forEach (fun alert => createAlert alert ;;; ret tt)
        (post_birth_alerts farmId userId sow pen_id actualBirthDateUTC)
  end.

(** [actual_birth_date || breedingRecord.actual_birth_date] as the value of a
    date column; [None] when the database rejects it. *)
Definition or_date (v : DateVal) (stored : option Z) : option (option Z) :=
  match v with
  | DAt t => Some (Some t)
  | DInvalid => None
  | DUndefined | DNull => Some stored
  end.

(** [UPDATE breeding_records SET actual_birth_date = $1,
    number_of_piglets = $2, notes = $3 WHERE id = $4 AND farm_id = $5 AND
    is_deleted = 0] on one row. *)
Definition updated_row (recordId farmId : string) (birth number : option Z)
  (notes : option string) (r : BreedingRecord) : BreedingRecord :=
  if live_record recordId farmId r
  then {| br_id := br_id r; br_farm_id := br_farm_id r;
          br_sow_id := br_sow_id r; br_boar_id := br_boar_id r;
          br_mating_date := br_mating_date r;
          br_expected_birth_date := br_expected_birth_date r;
          br_actual_birth_date := birth; br_number_of_piglets := number;
          br_notes := notes; br_alert_date := br_alert_date r;
          br_is_deleted := br_is_deleted r |}
  else r.

(** The final statement: the row is written with the parameters taken from
    the row read at the start, and read back ([RETURNING *]). *)
Definition write_breeding_record (recordId farmId : string)
  (updateData : UpdateData) (breedingRecord : BreedingRecord)
  : DB (option BreedingRecord) :=
  match or_date (ud_actual_birth_date updateData)
          (br_actual_birth_date breedingRecord) with
  | None => throw (DatabaseError "invalid input syntax for type date")
  | Some birth =>
      let number :=
        or_num (ud_number_of_piglets updateData)
          (br_number_of_piglets breedingRecord) in
      let notes := or_str (ud_notes updateData) (br_notes breedingRecord) in
      exec (set_breeding_records
              (List.map (updated_row recordId farmId birth number notes))) ;;;
      updatedRecordResult <-
        query (fun s => filter (live_record recordId farmId) (breeding_records s)) ;;
      ret (hd_error updatedRecordResult)
  end.

Definition updateBreedingRecord (recordId farmId : string)
  (updateData : UpdateData) (userId : string) : DB (option BreedingRecord) :=
  let actual_birth_date := ud_actual_birth_date updateData in
  let number_of_piglets := ud_number_of_piglets updateData in
  recordResult <-
    query (fun s => filter (live_record recordId farmId) (breeding_records s)) ;;
  match recordResult with
  | [] => throw (ValidationError "Breeding record not found")
  | breedingRecord :: _ =>
      (* If actual birth date is provided, handle culling logic and cancel
         pregnancy alerts *)
      (if truthy_date actual_birth_date && truthy_num number_of_piglets
       then
         match number_of_piglets with
         | Val n => birth_cascade breedingRecord farmId userId actual_birth_date n
         | _ => ret tt
         end
       else ret tt) ;;;
      (* Update breeding record *)
      write_breeding_record recordId farmId updateData breedingRecord
  end.

(** ** deleteBreedingRecord *)

Definition soft_delete_record (recordId farmId : string) (r : BreedingRecord)
  : BreedingRecord :=
  if live_record recordId farmId r
  then {| br_id := br_id r; br_farm_id := br_farm_id r;
          br_sow_id := br_sow_id r; br_boar_id := br_boar_id r;
          br_mating_date := br_mating_date r;
          br_expected_birth_date := br_expected_birth_date r;
          br_actual_birth_date := br_actual_birth_date r;
          br_number_of_piglets := br_number_of_piglets r;
          br_notes := br_notes r; br_alert_date := br_alert_date r;
          br_is_deleted := true |}
  else r.

Definition soft_delete_piglet (recordId : string) (p : PigletRecord)
  : PigletRecord :=
  if opt_eqb recordId (pl_breeding_record_id p) && negb (pl_is_deleted p)
  then {| pl_id := pl_id p; pl_breeding_record_id := pl_breeding_record_id p;
          pl_farm_id := pl_farm_id p; pl_piglet_number := pl_piglet_number p;
          pl_birth_weight := pl_birth_weight p; pl_gender := pl_gender p;
          pl_color := pl_color p; pl_status := pl_status p;
          pl_weaning_date := pl_weaning_date p;
          pl_parent_male_id := pl_parent_male_id p;
          pl_parent_female_id := pl_parent_female_id p;
          pl_notes := pl_notes p; pl_is_deleted := true |}
  else p.

Definition deleteBreedingRecord (recordId farmId userId : string)
  : DB string :=
  recordResult <-
    query (fun s => filter (live_record recordId farmId) (breeding_records s)) ;;
  match recordResult with
  | [] => throw (ValidationError "Breeding record not found")
  | breedingRecord :: _ =>
      (* Soft delete breeding record *)
      exec (set_breeding_records (map (soft_delete_record recordId farmId))) ;;;
      (* Soft delete associated piglet records *)
      exec (set_piglet_records (map (soft_delete_piglet recordId))) ;;;
      (* Update sow's pregnancy status if necessary *)
      (if negb (is_some (br_actual_birth_date breedingRecord))
       then
         exec (set_pigs
                 (map (clear_pregnancy None (br_sow_id breedingRecord) farmId))) ;;;
         (* Cancel related alerts *)
         exec (set_alerts
                 (map (resolve_alert rejected ["breeding"; "birth"]
                         (br_sow_id breedingRecord))))
       else ret tt) ;;;
      ret recordId
  end.

(** ** createPigletRecord *)

Record Piglet : Type := {
  pg_breeding_record_id : JsVal;
  pg_piglet_number : JsVal;
  pg_birth_weight : JsVal;
  pg_gender : JsVal;
  pg_color : JsVal;
  pg_status : JsVal;
  pg_parent_male_id : JsVal;
  pg_parent_female_id : JsVal;
  pg_notes : JsVal;
  pg_actual_birth_date : DateVal }.

(** The request body: [pigletz] is [None] when it is not an array. *)
Record PigletBatch : Type := {
  pigletz : option (list Piglet) }.

Record InsertedPiglet : Type := {
  ip_id : string;
  ip_piglet_number : option string }.

Inductive PigletResult : Type :=
| Success (message : string) (data : list InsertedPiglet)
| Failure (message : string).

Definition success (r : PigletResult) : bool :=
  match r with Success _ _ => true | Failure _ => false end.

(** Template-literal rendering of a value. *)
Definition js_to_string (v : JsVal) : string :=
  match v with
  | JUndefined => "undefined"
  | JNull => "null"
  | JBool true => "true"
  | JBool false => "false"
  | JNum n => NilZero.string_of_int (Z.to_int n)
  | JStr s => s
  end.

Definition nat_to_string (n : nat) : string :=
  NilEmpty.string_of_uint (Nat.to_uint n).

(** [[...new Set(l)]]: first occurrences, in order. *)
Fixpoint dedupe (l : list JsVal) : list JsVal :=
  match l with
  | [] => []
  | x :: rest => x :: filter (fun y => negb (JsVal_eqb x y)) (dedupe rest)
  end.

(** [column = ANY($1)] for a text or uuid column: the column equals the text
    of one of the values.  A value that is not the text of an identifier
    matches no row. *)
Definition any_of (values : list JsVal) (column : string) : bool :=
  existsb (fun v => opt_eqb column (sql_text v)) values.

Definition same_text (a b : option string) : bool :=
  match a, b with
  | Some x, Some y => String.eqb x y
  | _, _ => false
  end.

(** [piglet_records WHERE breeding_record_id = $1 AND is_deleted = 0] *)
Definition piglets_of_record (recordId : string) (s : Store)
  : list PigletRecord :=
  filter (fun p => opt_eqb recordId (pl_breeding_record_id p)
                   && negb (pl_is_deleted p)) (piglet_records s).

(** [pigletz.filter(piglet => piglet.breeding_record_id === id).length] *)
Definition batch_count (batch : list Piglet) (id : JsVal) : nat :=
  List.length (filter (fun k => JsVal_eqb (pg_breeding_record_id k) id) batch).

(** The required-field loop: only [breeding_record_id] and [piglet_number]
    are mandatory. *)
Definition check_required (piglet : Piglet) : DB unit :=
  if negb (truthy (pg_breeding_record_id piglet))
  then throw (ValidationError "breeding_record_id is required for each piglet")
  else if negb (truthy (pg_piglet_number piglet))
  then throw (ValidationError "piglet_number is required for each piglet")
  else ret tt.

(** The litter-size check of one breeding record. *)
Definition check_litter_size (batch : list Piglet) (record : BreedingRecord)
  : DB unit :=
  existingPiglets <- query (piglets_of_record (br_id record)) ;;
  let currentPigletCount := Z.of_nat (List.length existingPiglets) in
  let newPigletsForRecord := Z.of_nat (batch_count batch (JStr (br_id record))) in
  if (match br_number_of_piglets record with Some n => n | None => 0 end) + 1
     <? currentPigletCount + newPigletsForRecord
  then throw (ValidationError
    ("Total piglets significantly exceed breeding record litter size for breeding record "
     ++ br_id record))
  else ret tt.

(** [piglet_number]s of the batch already stored for the farm. *)
Definition stored_duplicates (farm_id : string) (pigletNumbers : list JsVal)
  (s : Store) : list string :=
  flat_map (fun p => match pl_piglet_number p with
                     | Some n => [n]
                     | None => []
                     end)
    (filter (fun p => String.eqb (pl_farm_id p) farm_id
                      && existsb (fun v => same_text (pl_piglet_number p) (sql_text v))
                           pigletNumbers
                      && negb (pl_is_deleted p)) (piglet_records s)).

(** Validation of the parent ids that were provided. *)
Definition check_parents (farm_id : string) (batch : list Piglet) : DB unit :=
  let parentIds :=
    dedupe (filter truthy
      (flat_map (fun piglet => [pg_parent_male_id piglet; pg_parent_female_id piglet])
         batch)) in
  if (0 <? List.length parentIds)%nat then
    foundIds <-
      query (fun s => filter (fun p => String.eqb (pig_farm_id p) farm_id
                                       && any_of parentIds (pig_id p)
                                       && negb (pig_is_deleted p)) (pigs s)) ;;
    let missingIds :=
      filter (fun id => negb (existsb (fun f => strict_eq_str (pig_id f) id) foundIds))
        parentIds in
    if (0 <? List.length missingIds)%nat
    then throw (ValidationError
      ("Invalid parent IDs: " ++ String.concat ", " (map js_to_string missingIds)))
    else
      (* Validate sow is female (if sow ID is provided and found) *)
      match batch with
      | first :: _ =>
          let sowId := pg_parent_female_id first in
          if truthy sowId then
            match find (fun f => strict_eq_str (pig_id f) sowId) foundIds with
            | Some sow =>
                if String.eqb (pig_gender sow) "female" then ret tt
                else throw (ValidationError
                  ("Parent female ID " ++ js_to_string sowId ++ " is not a sow"))
            | None =>
                throw (ValidationError
                  ("Parent female ID " ++ js_to_string sowId ++ " is not a sow"))
            end
          else ret tt
      | [] => ret tt
      end
  else ret tt.

(** The body of the insert loop for one piglet. *)
Definition insert_piglet (farm_id : string) (batch : list Piglet)
  (breedingRows : list BreedingRecord) (piglet : Piglet) : DB InsertedPiglet :=
  let breeding_record_id := pg_breeding_record_id piglet in
  let actual_birth_date := pg_actual_birth_date piglet in
  (* Validate breeding record matches sow and birth date *)
  match find (fun row => strict_eq_str (br_id row) breeding_record_id) breedingRows with
  | None =>
      throw (ValidationError
        ("Breeding record " ++ js_to_string breeding_record_id ++ " not found"))
  | Some breedingRecord =>
  if negb (strict_eq_str (br_sow_id breedingRecord) (pg_parent_female_id piglet))
  then throw (ValidationError
    ("Breeding record " ++ js_to_string breeding_record_id
     ++ " sows not match sow " ++ js_to_string (pg_parent_female_id piglet)))
  else
  (* Insert into pig_birth_history if not exists *)
  birthHistoryResult <-
    query (fun s => filter (fun h => same_text (bh_breeding_record_id h)
                                       (sql_text breeding_record_id)
                                     && negb (bh_is_deleted h))
                      (pig_birth_history s)) ;;
  (if match birthHistoryResult with
      | h :: _ => str_nonempty (bh_id h)
      | [] => false
      end
   then ret tt
   else
     birthHistoryId <- uuidv4 ;;
     match actual_birth_date with
     | DAt birth =>
         exec (set_pig_birth_history (fun t => app t [
           {| bh_id := birthHistoryId; bh_farm_id := farm_id;
              bh_sow_id :=
                if truthy (pg_parent_female_id piglet)
                then sql_text (pg_parent_female_id piglet)
                else Some (br_sow_id breedingRecord);
              bh_breeding_record_id := sql_text breeding_record_id;
              bh_birth_date := birth;
              bh_number_of_piglets :=
                Z.of_nat (batch_count batch breeding_record_id);
              bh_notes := or_null (pg_notes piglet);
              bh_is_deleted := false |}]))
     | DInvalid => throw (DatabaseError "invalid input syntax for type date")
     | DUndefined | DNull =>
         throw (DatabaseError "null value in column birth_date violates not-null constraint")
     end) ;;;
  (* Insert piglet; the weaning date is computed only if a birth date is
     provided *)
  match actual_birth_date with
  | DInvalid => throw (DatabaseError "invalid input syntax for type date")
  | _ =>
      id <- uuidv4 ;;
      exec (set_piglet_records (fun t => app t [
        {| pl_id := id; pl_breeding_record_id := sql_text breeding_record_id;
           pl_farm_id := farm_id;
           pl_piglet_number := sql_text (pg_piglet_number piglet);
           pl_birth_weight := or_null (pg_birth_weight piglet);
           pl_gender := or_null (pg_gender piglet);
           pl_color := or_null (pg_color piglet);
           pl_status :=
             if truthy (pg_status piglet) then pg_status piglet else JStr "alive";
           pl_weaning_date :=
             match actual_birth_date with
             | DAt birth => Some (add_days birth 42)
             | _ => None
             end;
           pl_parent_male_id := or_null (pg_parent_male_id piglet);
           pl_parent_female_id := or_null (pg_parent_female_id piglet);
           pl_notes := or_null (pg_notes piglet);
           pl_is_deleted := false |}])) ;;;
      ret {| ip_id := id; ip_piglet_number := sql_text (pg_piglet_number piglet) |}
  end
  end.

(** [for (const piglet of pigletz) { ...; insertedPiglets.push(...) }] *)
Fixpoint insert_all (farm_id : string) (batch : list Piglet)
  (breedingRows : list BreedingRecord) (todo : list Piglet)
  : DB (list InsertedPiglet) :=
  match todo with
  | [] => ret []
  | piglet :: rest =>
      row <- insert_piglet farm_id batch breedingRows piglet ;;
      rows <- insert_all farm_id batch breedingRows rest ;;
      ret (row :: rows)
  end.

(** The alert for relocating the piglets after weaning, built from the first
    entry of the batch. *)
Definition relocate_alert (farm_id userId : string) (first : Piglet) : DB unit :=
  actualBirthDateUTC <-
    query (fun s => match pg_actual_birth_date first with
                    | DUndefined => Some (now s)
                    | v => dayjs v
                    end) ;;
  let weaningDate := option_map (fun t => add_days t 42) actualBirthDateUTC in
  pen_id <-
    query (fun s => match sql_text (pg_parent_female_id first) with
                    | Some sow => pen_of sow farm_id s
                    | None => None
                    end) ;;
  createAlert
    {| as_farm_id := farm_id; as_user_id := userId;
       as_pig_id := sql_text (pg_parent_female_id first);
       as_pen_id := pen_id;
       as_name := "Relocate Piglets for " ++ js_to_string (pg_parent_female_id first);
       as_alert_start_date := option_map getUTCDateString weaningDate;
       as_alert_type := "birth"; as_severity := medium;
       as_message :=
         RelocatePigletsText (sql_text (pg_parent_female_id first))
           (option_map formatLocalDate weaningDate);
       as_notify_on :=
         [option_map (fun t => getUTCDateString (add_days t (-1))) weaningDate;
          option_map getUTCDateString weaningDate] |} ;;;
  ret tt.

(** The checks made before anything is written: the farm, the array, the
    required fields, the breeding records, the litter sizes, the piglet
    numbers already stored and the parents.  Returns [pigletz[0]], [pigletz]
    and the rows of the breeding records. *)
Definition validate_piglets (piglets : PigletBatch) (farm_id : string)
  : DB (Piglet * list Piglet * list BreedingRecord) :=
  (* Validate farm exists *)
  farmResult <-
    query (fun s => filter (fun f => String.eqb (fm_id f) farm_id
                                     && negb (fm_is_deleted f)) (farms s)) ;;
  if (List.length farmResult =? 0)%nat
  then throw (ValidationError "Farm not found") else
  (* Validate pigletz array *)
  match pigletz piglets with
  | None | Some [] =>
      throw (ValidationError "pigletz array is required and must not be empty")
  | Some ((first :: _) as batch) =>
  (* Validate each piglet has required fields *)
  forEach check_required batch ;;;
  (* Validate breeding_record_id *)
  let breedingRecordIds := dedupe (List.map pg_breeding_record_id batch) in
  breedingResult <-
    query (fun s => filter (fun r => any_of breedingRecordIds (br_id r)
                                     && String.eqb (br_farm_id r) farm_id
                                     && negb (br_is_deleted r))
                      (breeding_records s)) ;;
  if negb (List.length breedingResult =? List.length breedingRecordIds)%nat
  then throw (ValidationError "One or more breeding records not found") else
  (* Validate number of piglets does not exceed breeding record *)
  forEach (check_litter_size batch) breedingResult ;;;
  (* Validate unique piglet_numbers *)
  let pigletNumbers := filter truthy (List.map pg_piglet_number batch) in
  if (List.length pigletNumbers =? 0)%nat
  then throw (ValidationError "At least one valid piglet number is required") else
  duplicates <- query (stored_duplicates farm_id pigletNumbers) ;;
  if (0 <? List.length duplicates)%nat
  then throw (ValidationError
    ("Duplicate piglet numbers: " ++ String.concat ", " duplicates)) else
  (* Validate parent IDs (only if provided) *)
  check_parents farm_id batch ;;;
  ret (first, batch, breedingResult)
  end.

(** The body of the [try] block: the checks, the insert loop, the alert. *)
Definition createPigletRecord_try (piglets : PigletBatch) (farm_id userId : string)
  : DB (list InsertedPiglet) :=
  checked <- validate_piglets piglets farm_id ;;
  let '(first, batch, breedingResult) := checked in
  (* Create or update pig_birth_history, insert the piglets *)
  insertedPiglets <- insert_all farm_id batch breedingResult batch ;;
  (* Create alert for relocating piglets post-weaning *)
  relocate_alert farm_id userId first ;;;
  ret insertedPiglets.

(** [try { ... } catch (error) { return { success: false, message } }] *)
Definition createPigletRecord (piglets : PigletBatch) (farm_id userId : string)
  (s : Store) : Store * PigletResult :=
  match createPigletRecord_try piglets farm_id userId s with
  | (s', Return insertedPiglets) =>
      (s', Success (nat_to_string (List.length insertedPiglets)
                    ++ " piglets created successfully") insertedPiglets)
  | (s', Throw error) =>
      (s', Failure (if str_nonempty (error_message error)
                    then error_message error
                    else "Failed to create piglets"))
  end.

(** ** getBreedingRecordById *)

(** [JSON_AGG] over the piglet records of a breeding record that are not
    deleted: the rows the objects are built from, NULL when there is none. *)
Definition piglets_json (recordId : string) (s : Store)
  : option (list PigletRecord) :=
  match piglets_of_record recordId s with
  | [] => None
  | rows => Some rows
  end.

Definition getBreedingRecordById (recordId farmId : string)
  : DB (BreedingRecord * option (list PigletRecord)) :=
  result <-
    query (fun s =>
      List.map (fun br => (br, piglets_json (br_id br) s))
        (filter (live_record recordId farmId) (breeding_records s))) ;;
  match result with
  | [] => throw (ValidationError "Breeding record not found")
  | row :: _ => ret row
  end.

(** ** getBreedingHistoryByPigId *)

(** What leaves the function when it does not return: the error rethrown by
    the handler, or the error raised by the handler itself. *)
Inductive Thrown : Type :=
| Rethrown (e : Error)
| ReferenceError (message : string).

(** [breeding_records WHERE sow_id = $1 AND farm_id = $2 AND is_deleted = 0] *)
Definition history_rows (farmId pigId : string) (s : Store)
  : list BreedingRecord :=
  filter (fun br => String.eqb (br_sow_id br) pigId
                    && String.eqb (br_farm_id br) farmId
                    && negb (br_is_deleted br)) (breeding_records s).

(** The body of the [try] block. *)
Definition getBreedingHistoryByPigId_try (farmId pigId : string)
  : DB (list BreedingRecord) :=
  result <- query (history_rows farmId pigId) ;;
  if (List.length result =? 0)%nat
  then throw (ValidationError "Breeding record not found")
  else ret result.

(** The handler logs [`... ${recordId}: ${error.message}`] before it rethrows;
    this function has the parameters [farmId] and [pigId] and no [recordId],
    so that evaluating the text raises a ReferenceError and [throw error] is
    not reached. *)
Definition getBreedingHistoryByPigId (farmId pigId : string) (s : Store)
  : Store * (list BreedingRecord + Thrown) :=
  match getBreedingHistoryByPigId_try farmId pigId s with
  | (s', Return rows) => (s', inl rows)
  | (s', Throw error) => (s', inr (ReferenceError "recordId is not defined"))
  end.

(** ** The middleware in front of the breeding routes

    Every route of routes/breed.routes.js runs [authMiddleware] and then
    [requireActiveSubscription()] before the controller.  The token check of
    the JWT library is a parameter; the value of TRIAL_PERIOD is an ASCII
    text; the clock of the database and the clock of the process show the
    same instant. *)

Inductive GateMessage : Type :=
| PlainText (s : string)
| TrialExpiredText (trialEndsAt : option Z).

Inductive HttpError : Type :=
| UnauthorizedError (message : string)
| ForbiddenError (message : GateMessage)
| JwtError.

Record BlacklistRow : Type := {
  bl_token : string;
  bl_expires_at : Z;
  bl_is_deleted : bool }.

Record UserRow : Type := {
  ur_id : string;
  ur_email : string;
  ur_name : string;
  ur_role_id : option Z;
  ur_subscription_start : option Z;
  ur_subscription_end : option Z;
  ur_farm_id : option string;
  ur_is_active : bool;
  ur_is_deleted : bool }.

Record RoleRow : Type := {
  ro_id : Z;
  ro_name : string;
  ro_permissions : list string;
  ro_is_active : bool;
  ro_is_deleted : bool }.

Record FarmRow : Type := {
  fr_id : string;
  fr_created_at : option Z }.

Record AuthDb : Type := {
  token_blacklist : list BlacklistRow;
  users : list UserRow;
  roles : list RoleRow;
  farm_rows : list FarmRow;
  current_timestamp : Z }.

(** A row of the user query: the user joined with the role and, when there
    is one, the farm. *)
Record User : Type := {
  user_id : string;
  user_email : string;
  user_name : string;
  user_role_id : Z;
  subscription_start : option Z;
  subscription_end : option Z;
  user_farm_id : option string;
  role_name : string;
  permissions : list string;
  farm_created_at : option Z }.

Record AccessControl : Type := {
  trialPeriodDays : Z;
  trialEndsAt : option Z;
  isTrialActive : bool;
  hasActiveSubscription : bool }.

Definition DAY_IN_MS : Z := 24 * 60 * 60 * 1000.

Definition is_space (c : ascii) : bool :=
  match nat_of_ascii c with
  | 9%nat | 10%nat | 11%nat | 12%nat | 13%nat | 32%nat => true
  | _ => false
  end.

Fixpoint skip_spaces (s : string) : string :=
  match s with
  | String c rest => if is_space c then skip_spaces rest else s
  | EmptyString => s
  end.

Definition digit_of (c : ascii) : option Z :=
  let n := Z.of_nat (nat_of_ascii c) in
  if (48 <=? n) && (n <=? 57) then Some (n - 48) else None.

(** The value of the longest prefix of decimal digits; [acc] is [None] until
    a digit has been read. *)
Fixpoint read_digits (s : string) (acc : option Z) : option Z :=
  match s with
  | String c rest =>
      match digit_of c with
      | Some d =>
          read_digits rest
            (Some (10 * match acc with Some a => a | None => 0 end + d))
      | None => acc
      end
  | EmptyString => acc
  end.

(** [Number.parseInt(s, 10)]; [None] is NaN. *)
Definition parseInt10 (s : string) : option Z :=
  match skip_spaces s with
  | String "-"%char rest => option_map Z.opp (read_digits rest None)
  | String "+"%char rest => read_digits rest None
  | rest => read_digits rest None
  end.

(** [process.env.TRIAL_PERIOD ?? '30'], parsed; 30 when it is no number, at
    least 1. *)
Definition parseTrialPeriod (TRIAL_PERIOD : option string) : Z :=
  match parseInt10 (match TRIAL_PERIOD with Some v => v | None => "30" end) with
  | None => 30
  | Some parsed => Z.max parsed 1
  end.

(** [s.split(' ')[1]] *)
Fixpoint after_first_space (s : string) : option string :=
  match s with
  | String c rest => if Ascii.eqb c " "%char then Some rest else after_first_space rest
  | EmptyString => None
  end.

Fixpoint up_to_space (s : string) : string :=
  match s with
  | String c rest => if Ascii.eqb c " "%char then EmptyString else String c (up_to_space rest)
  | EmptyString => EmptyString
  end.

Definition second_word (s : string) : option string :=
  option_map up_to_space (after_first_space s).

(** The rows of the user query, users JOIN roles LEFT JOIN farms. *)
Definition user_rows (userId : option string) (db : AuthDb) : list User :=
  flat_map (fun u =>
    if opt_eqb (ur_id u) userId && negb (ur_is_deleted u) && ur_is_active u
    then
      flat_map (fun r =>
        if match ur_role_id u with Some i => i =? ro_id r | None => false end
           && negb (ro_is_deleted r) && ro_is_active r
        then
          List.map (fun created =>
            {| user_id := ur_id u; user_email := ur_email u;
               user_name := ur_name u; user_role_id := ro_id r;
               subscription_start := ur_subscription_start u;
               subscription_end := ur_subscription_end u;
               user_farm_id := ur_farm_id u; role_name := ro_name r;
               permissions := ro_permissions r;
               farm_created_at := created |})
            match filter (fun f => opt_eqb (fr_id f) (ur_farm_id u)) (farm_rows db) with
            | [] => [None]
            | found => List.map fr_created_at found
            end
        else []) (roles db)
    else []) (users db).

(** The access flags computed for a user at the instant [now]. *)
Definition access_control (TRIAL_PERIOD : option string) (now_ms : Z)
  (user : User) : AccessControl :=
  let trialPeriodDays := parseTrialPeriod TRIAL_PERIOD in
  let trialEnds :=
    match farm_created_at user with
    | Some farmCreatedAt => Some (farmCreatedAt + trialPeriodDays * DAY_IN_MS)
    | None => None
    end in
  {| trialPeriodDays := trialPeriodDays;
     trialEndsAt := trialEnds;
     isTrialActive :=
       match trialEnds with
       | Some ends => now_ms <=? ends
       | None => true   (* No farm yet; allow access while they set up *)
       end;
     hasActiveSubscription :=
       match subscription_end user with
       | Some subscriptionEndDate => now_ms <=? subscriptionEndDate
       | None => false
       end |}.

Inductive AuthResult : Type :=
| Authenticated (user : User) (accessControl : AccessControl)
| AuthFailed (error : HttpError).

Section Auth.

(** [jwt.verify(token, process.env.JWT_SECRET)]: [None] when it throws,
    the [userId] of the payload otherwise. *)
Variable jwt_verify : string -> option (option string).

Definition authMiddleware (TRIAL_PERIOD : option string)
  (authorization : JsOpt string) (db : AuthDb) : AuthResult :=
  if negb (truthy_str authorization)
     || negb (String.prefix "Bearer " (str_of authorization))
  then AuthFailed (UnauthorizedError "No token provided")
  else
  match second_word (str_of authorization) with
  | None => AuthFailed (UnauthorizedError "No token provided")
  | Some token =>
  (* Check if token is blacklisted *)
  let blacklistResult :=
    filter (fun b => String.eqb (bl_token b) token
                     && (current_timestamp db <? bl_expires_at b)
                     && negb (bl_is_deleted b)) (token_blacklist db) in
  if (0 <? List.length blacklistResult)%nat
  then AuthFailed (UnauthorizedError "Token is blacklisted")
  else
  match jwt_verify token with
  | None => AuthFailed JwtError
  | Some userId =>
      match user_rows userId db with
      | [] => AuthFailed (UnauthorizedError "User not found or inactive")
      | user :: _ =>
          Authenticated user
            (access_control TRIAL_PERIOD (current_timestamp db) user)
      end
  end
  end.

End Auth.

(** ** requireActiveSubscription *)

Record GateOptions : Type := {
  allowRoles : option (list string);
  allowDuringTrial : option bool;
  customMessage : JsOpt string }.

(** [requireActiveSubscription()] *)
Definition no_options : GateOptions :=
  {| allowRoles := None; allowDuringTrial := None; customMessage := Undefined |}.

Record Request : Type := {
  req_user : option User;
  req_accessControl : option AccessControl }.

Inductive Next : Type :=
| Continue
| NextError (error : HttpError).

Definition requireActiveSubscription (options : GateOptions) (req : Request)
  : Next :=
  let allowRoles' :=
    match allowRoles options with Some l => l | None => ["admin"; "superadmin"] end in
  let allowDuringTrial' :=
    match allowDuringTrial options with Some b => b | None => true end in
  match req_user req with
  | None => NextError (UnauthorizedError "Authentication required")
  | Some user =>
      let roleName := role_name user in
      if str_nonempty roleName && existsb (String.eqb roleName) allowRoles'
      then Continue
      else
        let hasSubscription :=
          match req_accessControl req with
          | Some ac => hasActiveSubscription ac
          | None => false
          end in
        let trialActive :=
          allowDuringTrial'
          && match req_accessControl req with
             | Some ac => isTrialActive ac
             | None => false
             end in
        if hasSubscription || trialActive then Continue
        else
          NextError (ForbiddenError
            (if truthy_str (customMessage options)
             then PlainText (str_of (customMessage options))
             else TrialExpiredText
                    match req_accessControl req with
                    | Some ac => trialEndsAt ac
                    | None => None
                    end))
  end.

(** The request that [authMiddleware] hands to the next middleware. *)
Definition request_of (user : User) (accessControl : AccessControl) : Request :=
  {| req_user := Some user; req_accessControl := Some accessControl |}.

(** * Definitions used by the statements *)

(** The rows that a run of [createAlert] over valid specs appends, the first
    one with identifier number [n]. *)
Fixpoint persisted (n : nat) (specs : list AlertSpec) : list Alert :=
  match specs with
  | [] => []
  | spec :: rest =>
      alert_row (uuid_text n) spec
        (match as_alert_start_date spec with Some d => d | None => 0 end)
        (match all_dates (as_notify_on spec) with Some l => l | None => [] end)
      :: persisted (S n) rest
  end.

Definition valid_spec (spec : AlertSpec) : bool :=
  is_some (as_alert_start_date spec) && is_some (all_dates (as_notify_on spec)).

Definition add_alerts (rows : list Alert) (s : Store) : Store :=
  {| farms := farms s; pigs := pigs s;
     breeding_records := breeding_records s;
     piglet_records := piglet_records s;
     pig_birth_history := pig_birth_history s;
     alerts := app (alerts s) rows;
     notifications := notifications s;
     uuid_counter := (List.length rows + uuid_counter s)%nat;
     now := now s |}.


(** The birth date of the sow's most recent resolved record. *)
Definition last_birth (sow farm : string) (s : Store) : option Z :=
  option_map birth_key (hd_error (resolved_records sow farm s)).






(** A computation that writes nothing. *)
Definition readonly {A} (c : DB A) : Prop :=
  forall s s' o, c s = (s', o) -> s' = s.

(** The entries of a request, none when [pigletz] is not an array. *)
Definition batch_of (piglets : PigletBatch) : list Piglet :=
  match pigletz piglets with Some batch => batch | None => [] end.


(** The weaning date stored with a piglet: 42 days after the birth date of
    the entry, NULL when the entry has none. *)
Definition weaning_of (v : DateVal) : option Z :=
  match v with DAt birth => Some (add_days birth 42) | _ => None end.

(** A piglet row registered for an entry of a batch. *)
Definition registered (farm_id : string) (piglet : Piglet) (row : PigletRecord)
  : Prop :=
  pl_piglet_number row = sql_text (pg_piglet_number piglet)
  /\ pl_breeding_record_id row = sql_text (pg_breeding_record_id piglet)
  /\ pl_farm_id row = farm_id
  /\ pl_weaning_date row = weaning_of (pg_actual_birth_date piglet)
  /\ pl_status row
     = (if truthy (pg_status piglet) then pg_status piglet else JStr "alive")
  /\ pl_is_deleted row = false.

(** The litter-size bound of a breeding record: the piglet records that are
    not deleted are at most one more than the recorded litter size. *)
Definition litter_bound (r : BreedingRecord) (s : Store) : Prop :=
  Z.of_nat (List.length (piglets_of_record (br_id r) s))
  <= match br_number_of_piglets r with Some n => n | None => 0 end + 1.


(** ** A farm used in the examples

    Farm "F" with the sow "S1" in pen "P1" and the boar "B1" in pen "P2".
    Day 20089 is 2025-01-01. *)

Definition ex_pig (id gender pen : string) : Pig :=
  {| pig_id := id; pig_farm_id := "F"; pig_gender := gender;
     pig_pen_id := Some pen; is_pregnant := false;
     pregnancy_start_date := None; pig_expected_birth_date := None;
     pig_actual_birth_date := None; pig_is_deleted := false |}.

Definition ex_store : Store :=
  {| farms := [{| fm_id := "F"; fm_is_deleted := false |}];
     pigs := [ex_pig "S1" "female" "P1"; ex_pig "B1" "male" "P2"];
     breeding_records := []; piglet_records := []; pig_birth_history := [];
     alerts := []; notifications := []; uuid_counter := 0;
     now := 20089 * day_ms |}.

(** A mating of "S1" with "B1" on the given day. *)
Definition ex_mating (day : Z) : BreedingData :=
  {| bd_farm_id := Val "F"; bd_sow_id := Val "S1"; bd_boar_id := Val "B1";
     bd_mating_date := DAt (day * day_ms);
     bd_expected_birth_date := DAt ((day + 114) * day_ms);
     bd_notes := Undefined; bd_immediate_notify_date := DUndefined;
     bd_alert_message := Undefined |}.

(** The store after the mating of 2025-01-01: one open record, "uuid-0". *)
Definition ex_store_mated : Store :=
  fst (createBreedingRecord (ex_mating 20089) "user-1" ex_store).

(** The record that the mating of 2025-01-01 creates. *)
Definition ex_record : BreedingRecord :=
  {| br_id := "uuid-0"; br_farm_id := "F"; br_sow_id := "S1";
     br_boar_id := "B1"; br_mating_date := 20089 * day_ms;
     br_expected_birth_date := Some (20203 * day_ms);
     br_actual_birth_date := None; br_number_of_piglets := None;
     br_notes := None; br_alert_date := Some (20110 * day_ms);
     br_is_deleted := false |}.

(** A birth of 6 piglets on 2025-04-26 (day 20204). *)
Definition ex_birth : UpdateData :=
  {| ud_actual_birth_date := DAt (20204 * day_ms);
     ud_number_of_piglets := Val 6; ud_notes := Undefined |}.

Definition ex_store_born : Store :=
  fst (updateBreedingRecord "uuid-0" "F" ex_birth "user-1" ex_store_mated).

(** A resolved record of "S1": a litter of [n] born on day [birth]. *)
Definition ex_litter (id : string) (birth n : Z) : BreedingRecord :=
  {| br_id := id; br_farm_id := "F"; br_sow_id := "S1"; br_boar_id := "B1";
     br_mating_date := (birth - 114) * day_ms;
     br_expected_birth_date := Some (birth * day_ms);
     br_actual_birth_date := Some (birth * day_ms);
     br_number_of_piglets := Some n; br_notes := None;
     br_alert_date := Some ((birth - 93) * day_ms); br_is_deleted := false |}.

(** The open record "r4" of "S1": a mating on day 20089. *)
Definition ex_open_record : BreedingRecord :=
  {| br_id := "r4"; br_farm_id := "F"; br_sow_id := "S1"; br_boar_id := "B1";
     br_mating_date := 20089 * day_ms;
     br_expected_birth_date := Some (20203 * day_ms);
     br_actual_birth_date := None; br_number_of_piglets := None;
     br_notes := None; br_alert_date := Some (20110 * day_ms);
     br_is_deleted := false |}.

(** "S1" with three resolved litters of 4, 3 and 4 piglets and the open
    record "r4". *)
Definition ex_store_low : Store :=
  set_breeding_records
    (fun _ =>
       [ex_litter "r1" 19400 4; ex_litter "r2" 19600 3; ex_litter "r3" 19800 4;
        ex_open_record])
    ex_store.


(** A piglet of the litter of "uuid-0", born on day 20204. *)
Definition ex_piglet (number : Z) (mother : JsVal) : Piglet :=
  {| pg_breeding_record_id := JStr "uuid-0"; pg_piglet_number := JNum number;
     pg_birth_weight := JUndefined; pg_gender := JStr "male";
     pg_color := JUndefined; pg_status := JUndefined;
     pg_parent_male_id := JStr "B1"; pg_parent_female_id := mother;
     pg_notes := JUndefined; pg_actual_birth_date := DAt (20204 * day_ms) |}.

(** A user database: the farmer "u1" without a subscription on the farm "F",
    created at day 20000; the token "t0" is blacklisted until day 20010. *)
Definition ex_jwt_verify (token : string) : option (option string) :=
  Some (Some "u1").

Definition ex_auth_db (now_ms : Z) : AuthDb :=
  {| token_blacklist :=
       [{| bl_token := "t0"; bl_expires_at := 20010 * DAY_IN_MS;
           bl_is_deleted := false |}];
     users :=
       [{| ur_id := "u1"; ur_email := "u1@farm"; ur_name := "U";
           ur_role_id := Some 2; ur_subscription_start := None;
           ur_subscription_end := None; ur_farm_id := Some "F";
           ur_is_active := true; ur_is_deleted := false |}];
     roles :=
       [{| ro_id := 1; ro_name := "admin"; ro_permissions := [];
           ro_is_active := true; ro_is_deleted := false |};
        {| ro_id := 2; ro_name := "farmer"; ro_permissions := [];
           ro_is_active := true; ro_is_deleted := false |}];
     farm_rows := [{| fr_id := "F"; fr_created_at := Some (20000 * DAY_IN_MS) |}];
     current_timestamp := now_ms |}.

Definition ex_user : User :=
  {| user_id := "u1"; user_email := "u1@farm"; user_name := "U";
     user_role_id := 2; subscription_start := None; subscription_end := None;
     user_farm_id := Some "F"; role_name := "farmer"; permissions := [];
     farm_created_at := Some (20000 * DAY_IN_MS) |}.

(** * Verification *)

(** ** Dates *)

Lemma getUTCDateString_add_days (t n : Z) :
  getUTCDateString (add_days t n) = getUTCDateString t + n.
Proof.
  unfold getUTCDateString, add_days.
  rewrite Z.div_add by (unfold day_ms; lia). reflexivity.
Qed.

(** ** Running the monad *)

Lemma createAlert_valid (spec : AlertSpec) (start : Z) (notify : list Z)
  (s : Store) :
  as_alert_start_date spec = Some start ->
  all_dates (as_notify_on spec) = Some notify ->
  createAlert spec s =
    (set_alerts (fun t => app t [alert_row (uuid_text (uuid_counter s)) spec start notify])
       (bump_uuid s),
     Return (uuid_text (uuid_counter s))).
Proof.
  intros Hs Hn. unfold createAlert. rewrite Hs, Hn. reflexivity.
Qed.


(** Peels the conditional or the match at the head of a run. *)
Ltac peel H :=
  match type of H with
  | (if ?c then _ else _) _ = _ => destruct c eqn:?
  | (match ?c with _ => _ end) _ = _ => destruct c eqn:?
  end.

(** ** Running the alert cascade *)

Lemma forEach_createAlert_valid (specs : list AlertSpec) :
  forallb valid_spec specs = true ->
  forall s,
    forEach (fun alert => createAlert alert ;;; ret tt) specs s =
      (add_alerts (persisted (uuid_counter s) specs) s, Return tt).
Proof.
  induction specs as [|spec rest IH]; intros Hv s.
  - cbn. unfold ret, add_alerts. destruct s; cbn. rewrite app_nil_r. reflexivity.
  - cbn [forallb] in Hv. apply andb_prop in Hv as [Hspec Hrest].
    unfold valid_spec in Hspec. apply andb_prop in Hspec as [Hs Hn].
    destruct (as_alert_start_date spec) as [start|] eqn:Es; [|discriminate].
    destruct (all_dates (as_notify_on spec)) as [notify|] eqn:En; [|discriminate].
    cbn [forEach]. unfold bind at 1 2.
    rewrite (createAlert_valid spec start notify s Es En).
    unfold ret at 1. rewrite (IH Hrest).
    f_equal. cbn [persisted]. rewrite Es, En.
    unfold add_alerts, set_alerts, bump_uuid; cbn.
    rewrite <- app_assoc. cbn. f_equal. lia.
Qed.

(** ** C1: the mating cascade *)


(** ** When a mating is accepted *)





(** ** The most recent resolved record *)

Lemma order_by_desc_head {A} (key : A -> Z) (l : list A) :
  match order_by_desc key l with
  | [] => l = []
  | r :: _ => In r l /\ forall x, In x l -> key x <= key r
  end.
Proof.
  induction l as [|a l IH]; [reflexivity|].
  cbn [order_by_desc fold_right]. fold (order_by_desc key l).
  destruct (order_by_desc key l) as [|y rest].
  - subst l. cbn. split; [now left|]. intros x [->|[]]. lia.
  - destruct IH as [Hy Hmax]. cbn [insert_desc].
    destruct (key y <? key a) eqn:E.
    + apply Z.ltb_lt in E. split; [now left|].
      intros x [->|Hx]; [lia|]. specialize (Hmax x Hx). lia.
    + apply Z.ltb_ge in E. split; [now right|].
      intros x [->|Hx]; [exact E|]. exact (Hmax x Hx).
Qed.

(** [last_birth] is the latest birth date among the sow's live resolved
    records. *)
Lemma last_birth_latest (sow farm : string) (s : Store) (D : Z) :
  last_birth sow farm s = Some D ->
  (exists r, In r (breeding_records s) /\ br_sow_id r = sow
             /\ br_farm_id r = farm /\ br_is_deleted r = false
             /\ br_actual_birth_date r = Some D)
  /\ forall r d, In r (breeding_records s) -> br_sow_id r = sow ->
       br_farm_id r = farm -> br_is_deleted r = false ->
       br_actual_birth_date r = Some d -> d <= D.
Proof.
  unfold last_birth, resolved_records. intros H.
  match type of H with context [order_by_desc ?k ?l] =>
    pose proof (order_by_desc_head k l) as Hhd;
    destruct (order_by_desc k l) as [|r0 rest] end; [discriminate|].
  cbn in H. injection H as <-. destruct Hhd as [Hin Hmax]. split.
  - apply filter_In in Hin as [Hin Hc].
    repeat (apply andb_prop in Hc as [Hc ?]).
    exists r0. split; [exact Hin|].
    apply String.eqb_eq in Hc. 
    match goal with H : String.eqb (br_farm_id _) _ = true |- _ =>
      apply String.eqb_eq in H end.
    match goal with H : negb _ = true |- _ => apply negb_true_iff in H end.
    repeat (split; [assumption|]).
    unfold birth_key. destruct (br_actual_birth_date r0); [reflexivity|discriminate].
  - intros r d Hr Hs Hf Hd Hb.
    assert (Hk : birth_key r <= birth_key r0).
    { apply Hmax. apply filter_In. split; [exact Hr|].
      rewrite Hs, Hf, Hd, Hb, !String.eqb_refl. reflexivity. }
    unfold birth_key at 1 in Hk. rewrite Hb in Hk. exact Hk.
Qed.

(** ** C5: the rest period *)


(** ** C4: open records are not consulted *)


(** ** The birth-outcome cascade *)




(** ** The update of the breeding record row *)

Lemma bind_inv {A B} (c : DB A) (k : A -> DB B) (s s' : Store) (o : Outcome B) :
  bind c k s = (s', o) ->
  exists s1 o1,
    c s = (s1, o1)
    /\ match o1 with
       | Return a => k a s1 = (s', o)
       | Throw e => s' = s1 /\ o = Throw e
       end.
Proof.
  unfold bind. destruct (c s) as [s1 [a|e]]; intros H.
  - exists s1, (Return a). split; [reflexivity | exact H].
  - exists s1, (Throw e). injection H as <- <-. repeat split; reflexivity.
Qed.

Lemma live_record_updated_row (recordId farmId : string) (birth number : option Z)
  (notes : option string) (r : BreedingRecord) :
  live_record recordId farmId (updated_row recordId farmId birth number notes r)
  = live_record recordId farmId r.
Proof.
  unfold updated_row. destruct (live_record recordId farmId r) eqn:E; exact E.
Qed.

Lemma updated_row_live (recordId farmId : string) (birth number : option Z)
  (notes : option string) (r : BreedingRecord) :
  live_record recordId farmId r = true ->
  updated_row recordId farmId birth number notes r
  = {| br_id := br_id r; br_farm_id := br_farm_id r;
       br_sow_id := br_sow_id r; br_boar_id := br_boar_id r;
       br_mating_date := br_mating_date r;
       br_expected_birth_date := br_expected_birth_date r;
       br_actual_birth_date := birth; br_number_of_piglets := number;
       br_notes := notes; br_alert_date := br_alert_date r;
       br_is_deleted := br_is_deleted r |}.
Proof. intros H. unfold updated_row. rewrite H. reflexivity. Qed.

Lemma filter_map_commute {A} (p : A -> bool) (f : A -> A) (l : list A) :
  (forall x, p (f x) = p x) ->
  filter p (List.map f l) = List.map f (filter p l).
Proof.
  intros Hp. induction l as [|x l IH]; [reflexivity|].
  cbn. rewrite Hp. destruct (p x); cbn; rewrite IH; reflexivity.
Qed.

Lemma filter_head_true {A} (p : A -> bool) (l : list A) (x : A) (rest : list A) :
  filter p l = x :: rest -> p x = true.
Proof.
  intros H. assert (Hin : In x (filter p l)) by (rewrite H; now left).
  apply filter_In in Hin. tauto.
Qed.

(** What the final statement does: it writes [breeding_records] only. *)
Lemma write_breeding_record_run (recordId farmId : string) (ud : UpdateData)
  (br : BreedingRecord) (s s' : Store) (o : Outcome (option BreedingRecord)) :
  live_record recordId farmId br = true ->
  hd_error (filter (live_record recordId farmId) (breeding_records s)) = Some br ->
  write_breeding_record recordId farmId ud br s = (s', o) ->
  notifications s' = notifications s
  /\ alerts s' = alerts s
  /\ pigs s' = pigs s
  /\ piglet_records s' = piglet_records s
  /\ pig_birth_history s' = pig_birth_history s
  /\ match o with
     | Throw _ => breeding_records s' = breeding_records s
     | Return res =>
         exists birth,
           or_date (ud_actual_birth_date ud) (br_actual_birth_date br) = Some birth
           /\ res = Some (updated_row recordId farmId birth
                           (or_num (ud_number_of_piglets ud) (br_number_of_piglets br))
                           (or_str (ud_notes ud) (br_notes br)) br)
           /\ breeding_records s'
              = List.map (updated_row recordId farmId birth
                            (or_num (ud_number_of_piglets ud) (br_number_of_piglets br))
                            (or_str (ud_notes ud) (br_notes br)))
                  (breeding_records s)
     end.
Proof.
  intros Hlive Hhd H. unfold write_breeding_record in H.
  destruct (or_date (ud_actual_birth_date ud) (br_actual_birth_date br))
    as [birth|] eqn:Eb.
  - cbv [bind exec query ret] in H. injection H as <- <-.
    cbn [notifications alerts pigs piglet_records pig_birth_history
         breeding_records set_breeding_records].
    repeat (split; [reflexivity|]).
    exists birth. split; [reflexivity|]. split; [|reflexivity].
    rewrite filter_map_commute by apply live_record_updated_row.
    destruct (filter (live_record recordId farmId) (breeding_records s))
      as [|x rest]; [discriminate|].
    cbn in Hhd. injection Hhd as ->. reflexivity.
  - unfold throw in H. injection H as <- <-. repeat split; reflexivity.
Qed.

(** ** C8: without a litter size the cascade is skipped *)

(** C8.  When [number_of_piglets] is absent, null or 0, [updateBreedingRecord]
    skips the whole birth-outcome cascade, also when a birth date is given:
    notifications, alerts and pigs are left as they were, only rows of
    [breeding_records] with the given id are written, and each of the three
    fields that is passed as a falsy value keeps the value stored before. *)
Theorem C8_no_litter_size_no_cascade (recordId farmId : string)
  (ud : UpdateData) (userId : string) (s s' : Store)
  (o : Outcome (option BreedingRecord)) :
  truthy_num (ud_number_of_piglets ud) = false ->
  updateBreedingRecord recordId farmId ud userId s = (s', o) ->
  notifications s' = notifications s
  /\ alerts s' = alerts s
  /\ pigs s' = pigs s
  /\ piglet_records s' = piglet_records s
  /\ pig_birth_history s' = pig_birth_history s
  /\ match o with
     | Throw _ => breeding_records s' = breeding_records s
     | Return res =>
         exists old new,
           hd_error (filter (live_record recordId farmId) (breeding_records s))
             = Some old
           /\ res = Some new
           /\ breeding_records s'
              = List.map (updated_row recordId farmId (br_actual_birth_date new)
                            (br_number_of_piglets new) (br_notes new))
                  (breeding_records s)
           /\ br_number_of_piglets new = br_number_of_piglets old
           /\ (truthy_date (ud_actual_birth_date ud) = false ->
               br_actual_birth_date new = br_actual_birth_date old)
           /\ (truthy_str (ud_notes ud) = false -> br_notes new = br_notes old)
     end.
Proof.
  intros Hn H. unfold updateBreedingRecord in H. cbv zeta in H.
  unfold bind at 1, query at 1 in H.
  destruct (filter (live_record recordId farmId) (breeding_records s))
    as [|old rest] eqn:Ef.
  - unfold throw in H. injection H as <- <-. repeat split; reflexivity.
  - rewrite Hn, andb_false_r in H. unfold bind, ret in H.
    pose proof (filter_head_true _ _ _ _ Ef) as Hlive.
    apply write_breeding_record_run in H; [|exact Hlive|rewrite Ef; reflexivity].
    destruct H as (H1 & H2 & H3 & H4 & H5 & H6).
    repeat (split; [assumption|]).
    destruct o as [res|e]; [|exact H6].
    destruct H6 as (birth & Eb & -> & Hrecs).
    exists old. eexists. split; [reflexivity|]. split; [reflexivity|].
    rewrite (updated_row_live _ _ _ _ _ _ Hlive).
    cbn [br_actual_birth_date br_number_of_piglets br_notes].
    split; [exact Hrecs|].
    split; [unfold or_num; rewrite Hn; reflexivity|].
    split.
    + intros Hd. destruct (ud_actual_birth_date ud); try discriminate;
        cbn in Eb; injection Eb as <-; reflexivity.
    + intros Hs. unfold or_str. rewrite Hs. reflexivity.
Qed.

(** ** C3: the culling rules *)







(** ** C1, C4, C5, C8: the hypotheses hold on the example farm *)




Lemma C8_no_litter_size_no_cascade_witness :
  let ud := {| ud_actual_birth_date := DAt (20204 * day_ms);
               ud_number_of_piglets := Val 0; ud_notes := Val "" |} in
  let s' := fst (updateBreedingRecord "uuid-0" "F" ud "user-1" ex_store_mated) in
  let o := snd (updateBreedingRecord "uuid-0" "F" ud "user-1" ex_store_mated) in
  truthy_num (ud_number_of_piglets ud) = false
  /\ updateBreedingRecord "uuid-0" "F" ud "user-1" ex_store_mated = (s', o)
  /\ alerts s' = alerts ex_store_mated
  /\ notifications s' = notifications ex_store_mated
  /\ List.map br_notes (breeding_records s') = [None]
  /\ List.map br_actual_birth_date (breeding_records s') = [Some (20204 * day_ms)].
Proof.
  intros ud s' o.
  assert (H1 : truthy_num (ud_number_of_piglets ud) = false) by reflexivity.
  assert (H2 : updateBreedingRecord "uuid-0" "F" ud "user-1" ex_store_mated
               = (s', o)) by (subst s' o; apply surjective_pairing).
  split; [exact H1|]. split; [exact H2|].
  destruct (C8_no_litter_size_no_cascade _ _ _ _ _ _ _ H1 H2) as (Hn & Ha & _).
  split; [exact Ha|]. split; [exact Hn|].
  split; vm_compute; reflexivity.
Defined.

(** ** C2: which alerts a recorded birth completes *)

Lemma resolve_alert_other_sow (st : AlertStatus) (types : list string)
  (sow : string) (a : Alert) :
  al_pig_id a <> Some sow -> resolve_alert st types sow a = a.
Proof.
  intros H. unfold resolve_alert.
  destruct (opt_eqb sow (al_pig_id a)) eqn:E; [|reflexivity].
  exfalso. apply H. unfold opt_eqb in E.
  destruct (al_pig_id a) as [x|]; [|discriminate].
  apply String.eqb_eq in E. now subst.
Qed.

Lemma resolve_alert_other_type (st : AlertStatus) (types : list string)
  (sow : string) (a : Alert) :
  existsb (String.eqb (al_type a)) types = false ->
  resolve_alert st types sow a = a.
Proof.
  intros H. unfold resolve_alert. rewrite H, andb_false_r. reflexivity.
Qed.

(** C2, the code at a failing input.  After the mating of 2025-01-01 the sow
    has seven pending alerts.  Recording the birth of 6 piglets completes the
    two of type "breeding" and leaves the five birth checks, of type "birth",
    pending: the UPDATE selects [alert_type = 'breeding'] only, so that an
    alert of type "birth" is never completed by it. *)
Theorem C2_birth_checks_left_pending :
  List.map (fun a => (al_name a, al_type a, al_status a)) (alerts ex_store_mated)
  = [("Breeding Success for S1 and B1", "breeding", pending);
     ("Add Nesting Box for S1", "breeding", pending);
     ("Check Birth for S1", "birth", pending);
     ("Check Birth for S1", "birth", pending);
     ("Check Birth for S1", "birth", pending);
     ("Check Birth for S1", "birth", pending);
     ("Check Birth for S1", "birth", pending)]
  /\ List.map (fun a => (al_name a, al_type a, al_status a))
       (firstn 7 (alerts ex_store_born))
     = [("Breeding Success for S1 and B1", "breeding", completed);
        ("Add Nesting Box for S1", "breeding", completed);
        ("Check Birth for S1", "birth", pending);
        ("Check Birth for S1", "birth", pending);
        ("Check Birth for S1", "birth", pending);
        ("Check Birth for S1", "birth", pending);
        ("Check Birth for S1", "birth", pending)]
  /\ forall sow a, al_type a = "birth" ->
       resolve_alert completed ["breeding"] sow a = a.
Proof.
  split; [vm_compute; reflexivity|]. split; [vm_compute; reflexivity|].
  intros sow a Ht. apply resolve_alert_other_type. rewrite Ht. reflexivity.
Qed.

(** ** C4: a second open record *)


(** ** C7: deleting a record *)

Lemma live_record_soft_delete (recordId farmId : string) (r : BreedingRecord) :
  live_record recordId farmId (soft_delete_record recordId farmId r) = false.
Proof.
  unfold soft_delete_record.
  destruct (live_record recordId farmId r) eqn:E; [|exact E].
  unfold live_record. cbn. apply andb_false_r.
Qed.

Lemma no_live_record_after_delete (recordId farmId : string)
  (l : list BreedingRecord) :
  filter (live_record recordId farmId)
    (List.map (soft_delete_record recordId farmId) l) = [].
Proof.
  induction l as [|r l IH]; [reflexivity|].
  cbn. rewrite live_record_soft_delete. exact IH.
Qed.

(** C7, as the code has it.  [deleteBreedingRecord] accepts every record that
    exists and is not deleted, resolved or not: it soft-deletes the record and
    the piglet records linked to it.  Only for an unresolved record does it
    also reset the pregnancy flags of the sow and reject the sow's pending
    alerts of types "breeding" and "birth"; for a resolved record pigs and
    alerts are left as they were. *)
Theorem C7_delete_accepts_resolved_records (recordId farmId userId : string)
  (s : Store) (br : BreedingRecord) :
  hd_error (filter (live_record recordId farmId) (breeding_records s)) = Some br ->
  exists s',
    deleteBreedingRecord recordId farmId userId s = (s', Return recordId)
    /\ breeding_records s'
       = List.map (soft_delete_record recordId farmId) (breeding_records s)
    /\ filter (live_record recordId farmId) (breeding_records s') = []
    /\ piglet_records s'
       = List.map (soft_delete_piglet recordId) (piglet_records s)
    /\ (br_actual_birth_date br = None ->
        pigs s' = List.map (clear_pregnancy None (br_sow_id br) farmId) (pigs s)
        /\ alerts s'
           = List.map (resolve_alert rejected ["breeding"; "birth"] (br_sow_id br))
               (alerts s))
    /\ (br_actual_birth_date br <> None ->
        pigs s' = pigs s /\ alerts s' = alerts s).
Proof.
  intros Hhd. unfold deleteBreedingRecord. cbv [bind query].
  destruct (filter (live_record recordId farmId) (breeding_records s))
    as [|x rest]; [discriminate|].
  cbn in Hhd. injection Hhd as ->.
  destruct (br_actual_birth_date br) as [t|] eqn:Eb; cbv [is_some negb exec ret];
    eexists; (split; [reflexivity|]);
    cbn [breeding_records piglet_records pigs alerts set_breeding_records
         set_piglet_records set_pigs set_alerts];
    (split; [reflexivity|]);
    (split; [apply no_live_record_after_delete|]);
    (split; [reflexivity|]); split; intros H;
    try discriminate; try (now exfalso; apply H); split; reflexivity.
Qed.

Lemma C7_delete_accepts_resolved_records_witness :
  hd_error (filter (live_record "r3" "F") (breeding_records ex_store_low))
    = Some (ex_litter "r3" 19800 4)
  /\ exists s',
       deleteBreedingRecord "r3" "F" "user-1" ex_store_low = (s', Return "r3")
       /\ filter (live_record "r3" "F") (breeding_records s') = []
       /\ alerts s' = alerts ex_store_low.
Proof.
  assert (H : hd_error (filter (live_record "r3" "F") (breeding_records ex_store_low))
              = Some (ex_litter "r3" 19800 4)) by (vm_compute; reflexivity).
  split; [exact H|].
  destruct (C7_delete_accepts_resolved_records "r3" "F" "user-1" ex_store_low _ H)
    as (s' & Hrun & _ & Hgone & _ & _ & Hres).
  exists s'. split; [exact Hrun|]. split; [exact Hgone|].
  apply Hres. discriminate.
Defined.

(** C7, the claim refuted.  The record "r3" of "S1" is resolved (a litter of
    4 was born); deleting it succeeds and the record is soft-deleted. *)
Lemma C7_resolved_record_deleted :
  List.map (fun r => (br_id r, is_some (br_actual_birth_date r), br_is_deleted r))
    (breeding_records ex_store_low)
  = [("r1", true, false); ("r2", true, false); ("r3", true, false);
     ("r4", false, false)]
  /\ snd (deleteBreedingRecord "r3" "F" "user-1" ex_store_low) = Return "r3"
  /\ List.map (fun r => (br_id r, is_some (br_actual_birth_date r), br_is_deleted r))
       (breeding_records (fst (deleteBreedingRecord "r3" "F" "user-1" ex_store_low)))
     = [("r1", true, false); ("r2", true, false); ("r3", true, true);
        ("r4", false, false)].
Proof. repeat split; vm_compute; reflexivity. Qed.

(** ** Registering a litter: the checks write nothing *)

Lemma readonly_ret {A} (a : A) : readonly (ret a).
Proof. intros s s' o H. unfold ret in H. now injection H as <- _. Qed.

Lemma readonly_throw {A} (e : Error) : readonly (@throw A e).
Proof. intros s s' o H. unfold throw in H. now injection H as <- _. Qed.

Lemma readonly_query {A} (f : Store -> A) : readonly (query f).
Proof. intros s s' o H. unfold query in H. now injection H as <- _. Qed.

Lemma readonly_bind {A B} (c : DB A) (k : A -> DB B) :
  readonly c -> (forall a, readonly (k a)) -> readonly (bind c k).
Proof.
  intros Hc Hk s s' o H. apply bind_inv in H.
  destruct H as (s1 & [a|e] & H1 & H2).
  - apply Hc in H1. subst s1. exact (Hk a _ _ _ H2).
  - destruct H2 as [-> _]. exact (Hc _ _ _ H1).
Qed.

Lemma readonly_forEach {A} (f : A -> DB unit) (l : list A) :
  (forall x, readonly (f x)) -> readonly (forEach f l).
Proof.
  intros Hf. induction l as [|x l IH]; cbn [forEach].
  - apply readonly_ret.
  - apply readonly_bind; [apply Hf | intros _; exact IH].
Qed.

Lemma readonly_if {A} (b : bool) (c1 c2 : DB A) :
  readonly c1 -> readonly c2 -> readonly (if b then c1 else c2).
Proof. destruct b; auto. Qed.

Create HintDb db.
#[local] Hint Resolve readonly_ret readonly_throw readonly_query : db.

Lemma readonly_check_required (piglet : Piglet) :
  readonly (check_required piglet).
Proof. unfold check_required. repeat apply readonly_if; auto with db. Qed.

Lemma readonly_check_litter_size (batch : list Piglet) (record : BreedingRecord) :
  readonly (check_litter_size batch record).
Proof.
  unfold check_litter_size. apply readonly_bind; [auto with db|].
  intros a. apply readonly_if; auto with db.
Qed.

Lemma readonly_check_parents (farm_id : string) (batch : list Piglet) :
  readonly (check_parents farm_id batch).
Proof.
  unfold check_parents. apply readonly_if; [|auto with db].
  apply readonly_bind; [auto with db|]. intros found.
  apply readonly_if; [auto with db|].
  destruct batch as [|first rest]; [auto with db|].
  apply readonly_if; [|auto with db].
  destruct (find _ found); [apply readonly_if|]; auto with db.
Qed.

Lemma readonly_validate_piglets (piglets : PigletBatch) (farm_id : string) :
  readonly (validate_piglets piglets farm_id).
Proof.
  unfold validate_piglets. apply readonly_bind; [auto with db|]. intros farmResult.
  apply readonly_if; [auto with db|].
  destruct (pigletz piglets) as [[|first rest]|]; auto with db.
  apply readonly_bind; [apply readonly_forEach, readonly_check_required|].
  intros _. apply readonly_bind; [auto with db|]. intros rows.
  apply readonly_if; [auto with db|].
  apply readonly_bind; [apply readonly_forEach, readonly_check_litter_size|].
  intros _. apply readonly_if; [auto with db|].
  apply readonly_bind; [auto with db|]. intros dups.
  apply readonly_if; [auto with db|].
  apply readonly_bind; [apply readonly_check_parents|].
  intros _. auto with db.
Qed.

(** What the checks return: the batch, its first entry, and rows of
    [breeding_records]. *)
Lemma validate_piglets_returns (piglets : PigletBatch) (farm_id : string)
  (s s' : Store) (first : Piglet) (batch : list Piglet)
  (rows : list BreedingRecord) :
  validate_piglets piglets farm_id s = (s', Return (first, batch, rows)) ->
  pigletz piglets = Some batch
  /\ hd_error batch = Some first
  /\ incl rows (breeding_records s).
Proof.
  intros H. unfold validate_piglets in H.
  unfold bind at 1, query at 1 in H.
  peel H; [discriminate|].
  destruct (pigletz piglets) as [[|p rest]|]; try discriminate.
  apply bind_inv in H. destruct H as (s1 & [[]|e] & H1 & H); [|now destruct H].
  apply (readonly_forEach _ _ readonly_check_required) in H1. subst s1.
  unfold bind at 1, query at 1 in H.
  peel H; [discriminate|].
  apply bind_inv in H. destruct H as (s1 & [[]|e] & H1 & H); [|now destruct H].
  peel H; [discriminate|].
  unfold bind at 1, query at 1 in H.
  peel H; [discriminate|].
  apply bind_inv in H. destruct H as (s2 & [[]|e] & H2 & H); [|now destruct H].
  unfold ret in H. injection H as _ <- <- <-.
  repeat split; try reflexivity.
  intros r Hr. apply filter_In in Hr. tauto.
Qed.

(** ** Registering a litter: the insert loop *)

Lemma JsVal_eqb_eq (a b : JsVal) : JsVal_eqb a b = true <-> a = b.
Proof.
  split.
  - destruct a, b; cbn; intros H; try discriminate; try reflexivity.
    + apply Bool.eqb_prop in H. now subst.
    + apply Z.eqb_eq in H. now subst.
    + apply String.eqb_eq in H. now subst.
  - intros <-. destruct a; cbn; try reflexivity.
    + apply Bool.eqb_reflx.
    + apply Z.eqb_refl.
    + apply String.eqb_refl.
Qed.


Lemma insert_piglet_mismatch (farm_id : string) (batch : list Piglet)
  (rows : list BreedingRecord) (piglet : Piglet) (s : Store) :
  (forall r, In r rows ->
     pg_breeding_record_id piglet = JStr (br_id r) ->
     pg_parent_female_id piglet <> JStr (br_sow_id r)) ->
  exists message,
    insert_piglet farm_id batch rows piglet s
    = (s, Throw (ValidationError message)).
Proof.
  intros Hm. unfold insert_piglet. cbv zeta.
  destruct (find _ rows) as [r|] eqn:Ef; [|eexists; reflexivity].
  apply find_some in Ef as [Hin Hid].
  unfold strict_eq_str in Hid. apply JsVal_eqb_eq in Hid.
  specialize (Hm r Hin (eq_sym Hid)).
  destruct (strict_eq_str (br_sow_id r) (pg_parent_female_id piglet)) eqn:E.
  - exfalso. apply Hm. unfold strict_eq_str in E. apply JsVal_eqb_eq in E.
    now symmetry.
  - cbn [negb]. eexists. reflexivity.
Qed.


Lemma insert_all_mismatch (farm_id : string) (batch : list Piglet)
  (rows : list BreedingRecord) (piglet : Piglet) (todo : list Piglet) :
  In piglet todo ->
  (forall r, In r rows ->
     pg_breeding_record_id piglet = JStr (br_id r) ->
     pg_parent_female_id piglet <> JStr (br_sow_id r)) ->
  forall s, exists s' e, insert_all farm_id batch rows todo s = (s', Throw e).
Proof.
  intros Hin Hm. induction todo as [|x rest IH]; [destruct Hin|].
  intros s. cbn [insert_all]. unfold bind at 1.
  destruct (insert_piglet farm_id batch rows x s) as [s1 [ip|e]] eqn:Hx;
    [|eexists; eexists; reflexivity].
  destruct Hin as [->|Hin].
  - destruct (insert_piglet_mismatch farm_id batch rows piglet s Hm) as [m Hthrow].
    rewrite Hthrow in Hx. discriminate.
  - destruct (IH Hin s1) as (s2 & e & Hrest).
    unfold bind. rewrite Hrest. eexists; eexists; reflexivity.
Qed.


(** ** C9: the mother of every entry must be the sow of the record *)

(** C9.  An entry whose [parent_female_id] is absent, or is anything but the
    sow id of the breeding record it names, makes the whole call fail: the
    insert loop throws a validation error at that entry, before writing
    anything for it, although the required-field check accepts an entry that
    has only [breeding_record_id] and [piglet_number]. *)
Theorem C9_mother_must_be_the_sow (piglets : PigletBatch)
  (farm_id userId : string) (s : Store) (piglet : Piglet) :
  In piglet (batch_of piglets) ->
  (forall r, In r (breeding_records s) ->
     pg_breeding_record_id piglet = JStr (br_id r) ->
     pg_parent_female_id piglet <> JStr (br_sow_id r)) ->
  (exists s' message,
     createPigletRecord piglets farm_id userId s = (s', Failure message))
  /\ (forall rows s0, incl rows (breeding_records s) ->
        exists message,
          insert_piglet farm_id (batch_of piglets) rows piglet s0
          = (s0, Throw (ValidationError message)))
  /\ (truthy (pg_breeding_record_id piglet) = true ->
      truthy (pg_piglet_number piglet) = true ->
      check_required piglet s = (s, Return tt)).
Proof.
  intros Hin Hm. split; [|split].
  - assert (Hthrow : exists s' e,
              createPigletRecord_try piglets farm_id userId s = (s', Throw e)).
    { unfold createPigletRecord_try. unfold bind at 1.
      destruct (validate_piglets piglets farm_id s)
        as [s1 [[[first batch] rows]|e]] eqn:Hv; [|eexists; eexists; reflexivity].
      pose proof (readonly_validate_piglets _ _ _ _ _ Hv) as ->.
      apply validate_piglets_returns in Hv. destruct Hv as (Hb & _ & Hincl).
      unfold batch_of in Hin. rewrite Hb in Hin.
      destruct (insert_all_mismatch farm_id batch rows piglet batch Hin) with (s := s)
        as (s2 & e & Hall).
      { intros r Hr. apply Hm, Hincl, Hr. }
      unfold bind at 1. rewrite Hall. eexists; eexists; reflexivity. }
    destruct Hthrow as (s' & e & Hthrow).
    unfold createPigletRecord. rewrite Hthrow. eexists; eexists; reflexivity.
  - intros rows s0 Hincl. apply insert_piglet_mismatch.
    intros r Hr. apply Hm, Hincl, Hr.
  - intros Hb Hn. unfold check_required. rewrite Hb, Hn. reflexivity.
Qed.

Lemma C9_mother_must_be_the_sow_witness :
  let piglets := {| pigletz := Some [ex_piglet 1 JUndefined] |} in
  In (ex_piglet 1 JUndefined) (batch_of piglets)
  /\ (forall r, In r (breeding_records ex_store_born) ->
        pg_breeding_record_id (ex_piglet 1 JUndefined) = JStr (br_id r) ->
        pg_parent_female_id (ex_piglet 1 JUndefined) <> JStr (br_sow_id r))
  /\ (exists s' message,
        createPigletRecord piglets "F" "user-1" ex_store_born
        = (s', Failure message))
  /\ check_required (ex_piglet 1 JUndefined) ex_store_born
     = (ex_store_born, Return tt).
Proof.
  intros piglets.
  assert (H1 : In (ex_piglet 1 JUndefined) (batch_of piglets)) by (now left).
  assert (H2 : forall r, In r (breeding_records ex_store_born) ->
                 pg_breeding_record_id (ex_piglet 1 JUndefined) = JStr (br_id r) ->
                 pg_parent_female_id (ex_piglet 1 JUndefined) <> JStr (br_sow_id r))
    by (intros r _ _; discriminate).
  split; [exact H1|]. split; [exact H2|].
  destruct (C9_mother_must_be_the_sow piglets "F" "user-1" ex_store_born
              (ex_piglet 1 JUndefined) H1 H2) as (Hfail & _ & Hreq).
  split; [exact Hfail|]. apply Hreq; reflexivity.
Defined.

(** ** C6: a failed registration is not rolled back *)




(** ** C10: duplicates inside one batch *)

(** C10.  The duplicate check looks up the submitted numbers among the piglet
    records stored for the farm, and nothing else.  A batch that carries the
    number 3 twice, for a farm that has no piglet 3, passes it: the call
    succeeds and both rows are inserted with piglet number "3". *)
Theorem C10_duplicates_within_a_batch_pass :
  let batch := [ex_piglet 3 (JStr "S1"); ex_piglet 3 (JStr "S1")] in
  let run := createPigletRecord {| pigletz := Some batch |} "F" "user-1" ex_store_born in
  piglet_records ex_store_born = []
  /\ stored_duplicates "F" (filter truthy (List.map pg_piglet_number batch))
       ex_store_born = []
  /\ success (snd run) = true
  /\ List.map (fun p => (pl_farm_id p, pl_piglet_number p, pl_is_deleted p))
       (piglet_records (fst run))
     = [("F", Some "3", false); ("F", Some "3", false)].
Proof. cbv zeta. repeat split; vm_compute; reflexivity. Qed.

(** * Further properties of the service *)

(** ** createBreedingRecord: a rejected mating writes nothing *)




(** ** createBreedingRecord: the boundary of the rest period *)



(** ** createBreedingRecord: when the alerts notify *)

(** X3.  Of the seven alerts of a successful mating, the confirmation is of
    medium severity and notifies once, on the day of
    [immediate_notify_date] when one is given and on the mating day
    otherwise, and carries the caller's message when one is given; each of
    the six scheduled alerts is of high severity and notifies on the day
    before its start date and on its start date. *)
Theorem createBreedingRecord_notify_on (bd : BreedingData) (userId : string)
  (M : Z) (s s' : Store) (rec : BreedingRecord) :
  bd_mating_date bd = DAt M ->
  createBreedingRecord bd userId s = (s', Return rec) ->
  exists conf scheduled,
    alerts s' = app (alerts s) (conf :: scheduled)
    /\ List.length scheduled = 6%nat
    /\ al_severity conf = medium
    /\ al_notify_on conf
       = [getUTCDateString
            match bd_immediate_notify_date bd with DAt t => t | _ => M end]
    /\ (truthy_str (bd_alert_message bd) = true ->
        al_message conf = CustomText (str_of (bd_alert_message bd)))
    /\ Forall (fun a => al_severity a = high
                        /\ al_notify_on a = [al_start_date a - 1; al_start_date a])
         scheduled.
Proof.
  intros HM H. unfold createBreedingRecord in H. rewrite HM in H.
  cbv [dayjs] in H.
  peel H; [discriminate|].
  peel H; [|discriminate].
  peel H; [discriminate|].
  cbv [bind query] in H.
  peel H; [discriminate|].
  peel H; [discriminate|].
  peel H; [discriminate|].
  cbv [uuidv4 exec ret] in H.
  erewrite createAlert_valid in H by reflexivity.
  rewrite forEach_createAlert_valid in H by reflexivity.
  injection H as <- <-.
  cbn [alerts add_alerts set_alerts set_breeding_records bump_uuid uuid_counter
       persisted scheduled_alerts List.map seq].
  rewrite <- app_assoc. cbn [app].
  eexists. eexists. split; [reflexivity|].
  cbn [al_severity al_notify_on al_start_date al_message alert_row as_severity
       as_notify_on as_alert_start_date as_message all_dates List.length].
  split; [reflexivity|]. split; [reflexivity|].
  split; [destruct (bd_immediate_notify_date bd); reflexivity|].
  split; [intros Hm; rewrite Hm; reflexivity|].
  rewrite !getUTCDateString_add_days.
  repeat (apply Forall_cons;
          [split;
             [reflexivity
             |cbn;
              match goal with |- [?a; ?b] = [?c; ?d] =>
                replace c with a by lia; replace d with b by lia; reflexivity
              end]|]).
  apply Forall_nil.
Qed.

Lemma createBreedingRecord_notify_on_witness :
  bd_mating_date (ex_mating 20089) = DAt (20089 * day_ms)
  /\ createBreedingRecord (ex_mating 20089) "user-1" ex_store
     = (ex_store_mated, Return ex_record)
  /\ exists conf scheduled,
       alerts ex_store_mated = app (alerts ex_store) (conf :: scheduled)
       /\ al_notify_on conf = [20089]
       /\ Forall (fun a => al_notify_on a = [al_start_date a - 1; al_start_date a])
            scheduled.
Proof.
  assert (H1 : bd_mating_date (ex_mating 20089) = DAt (20089 * day_ms))
    by reflexivity.
  assert (H2 : createBreedingRecord (ex_mating 20089) "user-1" ex_store
               = (ex_store_mated, Return ex_record))
    by (vm_compute; reflexivity).
  split; [exact H1|]. split; [exact H2|].
  destruct (createBreedingRecord_notify_on _ _ _ _ _ _ H1 H2)
    as (conf & scheduled & Hal & _ & _ & Hn & _ & Hs).
  exists conf, scheduled. split; [exact Hal|]. split; [exact Hn|].
  eapply Forall_impl; [|exact Hs]. intros a [_ Ha]. exact Ha.
Defined.

(** ** updateBreedingRecord: the shape of every run *)



(** ** updateBreedingRecord: what a recorded birth schedules *)



(** ** Alerts are only ever resolved, and only those of the sow *)





(** ** deleteBreedingRecord: every run *)

Lemma deleteBreedingRecord_run (recordId farmId userId : string)
  (s s' : Store) (o : Outcome string) :
  deleteBreedingRecord recordId farmId userId s = (s', o) ->
  (hd_error (filter (live_record recordId farmId) (breeding_records s)) = None
   /\ s' = s /\ o = Throw (ValidationError "Breeding record not found"))
  \/ exists br,
       hd_error (filter (live_record recordId farmId) (breeding_records s))
         = Some br
       /\ o = Return recordId
       /\ breeding_records s'
          = List.map (soft_delete_record recordId farmId) (breeding_records s)
       /\ piglet_records s'
          = List.map (soft_delete_piglet recordId) (piglet_records s)
       /\ notifications s' = notifications s
       /\ pig_birth_history s' = pig_birth_history s
       /\ (if is_some (br_actual_birth_date br)
           then pigs s' = pigs s /\ alerts s' = alerts s
           else pigs s'
                = List.map (clear_pregnancy None (br_sow_id br) farmId) (pigs s)
                /\ alerts s'
                   = List.map (resolve_alert rejected ["breeding"; "birth"]
                                 (br_sow_id br)) (alerts s)).
Proof.
  intros H. unfold deleteBreedingRecord in H. cbv [bind query] in H.
  destruct (filter (live_record recordId farmId) (breeding_records s))
    as [|br rest].
  - left. unfold throw in H. injection H as <- <-. repeat split; reflexivity.
  - right. exists br. split; [reflexivity|].
    destruct (is_some (br_actual_birth_date br)) eqn:Eb;
      cbv [negb exec ret] in H; injection H as <- <-;
      repeat split; reflexivity.
Qed.


(** ** Deleting twice, and looking up what was deleted *)

(** X7.  After [deleteBreedingRecord] has returned, the record is gone for
    the service: a second deletion throws "Breeding record not found" and
    writes nothing, and so does a lookup with [getBreedingRecordById]. *)
Theorem deleteBreedingRecord_then_not_found (recordId farmId userId : string)
  (s s' : Store) (id : string) :
  deleteBreedingRecord recordId farmId userId s = (s', Return id) ->
  id = recordId
  /\ (forall userId', deleteBreedingRecord recordId farmId userId' s'
        = (s', Throw (ValidationError "Breeding record not found")))
  /\ getBreedingRecordById recordId farmId s'
     = (s', Throw (ValidationError "Breeding record not found")).
Proof.
  intros H. apply deleteBreedingRecord_run in H.
  destruct H as [(_ & _ & H)|(br & _ & H & Hrecs & _)]; [discriminate|].
  injection H as ->.
  assert (Hnone : filter (live_record recordId farmId) (breeding_records s') = []).
  { rewrite Hrecs. apply no_live_record_after_delete. }
  split; [reflexivity|]. split.
  - intros userId'. unfold deleteBreedingRecord. cbv [bind query].
    rewrite Hnone. reflexivity.
  - unfold getBreedingRecordById. cbv [bind query]. rewrite Hnone. reflexivity.
Qed.

Lemma deleteBreedingRecord_then_not_found_witness :
  let s' := fst (deleteBreedingRecord "r4" "F" "user-1" ex_store_low) in
  deleteBreedingRecord "r4" "F" "user-1" ex_store_low = (s', Return "r4")
  /\ deleteBreedingRecord "r4" "F" "user-2" s'
     = (s', Throw (ValidationError "Breeding record not found"))
  /\ getBreedingRecordById "r4" "F" s'
     = (s', Throw (ValidationError "Breeding record not found")).
Proof.
  intros s'.
  assert (H : deleteBreedingRecord "r4" "F" "user-1" ex_store_low
              = (s', Return "r4")) by (vm_compute; reflexivity).
  split; [exact H|].
  destruct (deleteBreedingRecord_then_not_found _ _ _ _ _ _ H) as (_ & Hd & Hg).
  split; [apply Hd | exact Hg].
Defined.

(** ** A recorded birth starts the rest period *)




(** ** Looking up what was created *)

Lemma createBreedingRecord_returns (bd : BreedingData) (userId : string)
  (s s' : Store) (rec : BreedingRecord) :
  createBreedingRecord bd userId s = (s', Return rec) ->
  br_id rec = uuid_text (uuid_counter s)
  /\ br_sow_id rec = str_of (bd_sow_id bd)
  /\ br_farm_id rec = str_of (bd_farm_id bd)
  /\ br_actual_birth_date rec = None
  /\ br_is_deleted rec = false
  /\ breeding_records s' = app (breeding_records s) [rec]
  /\ piglet_records s' = piglet_records s
  /\ pigs s' = pigs s.
Proof.
  intros H. unfold createBreedingRecord in H. cbv zeta in H.
  peel H; [discriminate|].
  peel H; [|discriminate].
  peel H; [|discriminate].
  peel H; [discriminate|].
  cbv [bind query] in H.
  peel H; [discriminate|].
  peel H; [discriminate|].
  peel H; [discriminate|].
  cbv [uuidv4 exec ret] in H.
  erewrite createAlert_valid in H by reflexivity.
  rewrite forEach_createAlert_valid in H by reflexivity.
  injection H as <- <-. repeat split; reflexivity.
Qed.

Lemma no_live_record_of_fresh_id (id farmId : string) (l : list BreedingRecord) :
  (forall r, In r l -> br_id r <> id) ->
  filter (live_record id farmId) l = [].
Proof.
  induction l as [|r l IH]; intros Hfresh; [reflexivity|].
  cbn. unfold live_record at 1.
  destruct (String.eqb (br_id r) id) eqn:E.
  - apply String.eqb_eq in E. exfalso. apply (Hfresh r); [now left | exact E].
  - cbn. apply IH. intros r' Hr'. apply Hfresh. now right.
Qed.

Lemma no_piglet_of_fresh_id (id : string) (l : list PigletRecord) :
  (forall p, In p l -> pl_breeding_record_id p <> Some id) ->
  filter (fun p => opt_eqb id (pl_breeding_record_id p) && negb (pl_is_deleted p)) l
  = [].
Proof.
  induction l as [|p l IH]; intros Hpig; [reflexivity|].
  cbn. destruct (opt_eqb id (pl_breeding_record_id p)) eqn:E.
  - exfalso. unfold opt_eqb in E.
    destruct (pl_breeding_record_id p) as [x|] eqn:Ex; [|discriminate].
    apply String.eqb_eq in E. apply (Hpig p); [now left|]. congruence.
  - cbn. apply IH. intros p' Hp'. apply Hpig. now right.
Qed.

(** X9.  A record created by [createBreedingRecord] is found by
    [getBreedingRecordById] under the id and farm of the returned row, as
    that row and without piglets, provided the identifier drawn for it is
    not already the id of a breeding record or referenced by a piglet
    record. *)
Theorem getBreedingRecordById_after_create (bd : BreedingData)
  (userId : string) (s s' : Store) (rec : BreedingRecord) :
  createBreedingRecord bd userId s = (s', Return rec) ->
  (forall r, In r (breeding_records s) -> br_id r <> uuid_text (uuid_counter s)) ->
  (forall p, In p (piglet_records s) ->
     pl_breeding_record_id p <> Some (uuid_text (uuid_counter s))) ->
  getBreedingRecordById (br_id rec) (br_farm_id rec) s' = (s', Return (rec, None)).
Proof.
  intros H Hfresh Hpig. apply createBreedingRecord_returns in H.
  destruct H as (Hid & _ & _ & _ & Hdel & Hrecs & Hpl & _).
  unfold getBreedingRecordById. cbv [bind query].
  rewrite Hrecs, filter_app.
  rewrite (no_live_record_of_fresh_id (br_id rec) (br_farm_id rec))
    by (rewrite Hid; exact Hfresh).
  cbn [app filter].
  unfold live_record at 1. rewrite !String.eqb_refl, Hdel.
  cbn [andb negb List.map ret].
  assert (Hnone : piglets_json (br_id rec) s' = None).
  { unfold piglets_json, piglets_of_record. rewrite Hpl, Hid.
    rewrite no_piglet_of_fresh_id by exact Hpig. reflexivity. }
  rewrite Hnone. reflexivity.
Qed.

Lemma getBreedingRecordById_after_create_witness :
  createBreedingRecord (ex_mating 20089) "user-1" ex_store
  = (ex_store_mated, Return ex_record)
  /\ getBreedingRecordById "uuid-0" "F" ex_store_mated
     = (ex_store_mated, Return (ex_record, None)).
Proof.
  assert (H : createBreedingRecord (ex_mating 20089) "user-1" ex_store
              = (ex_store_mated, Return ex_record)) by (vm_compute; reflexivity).
  split; [exact H|].
  apply (getBreedingRecordById_after_create _ _ _ _ _ H); intros x [].
Defined.

(** ** The breeding history of a sow *)

(** X10.  [getBreedingHistoryByPigId] returns the records of the sow in the
    farm that are not deleted, in table order, and writes nothing.  When
    there is none its handler raises a ReferenceError, never the validation
    error thrown in the body.  After a successful mating the history of the
    sow is the history before followed by the new record. *)
Theorem getBreedingHistoryByPigId_after_mating (bd : BreedingData)
  (userId : string) (s s' : Store) (rec : BreedingRecord) :
  createBreedingRecord bd userId s = (s', Return rec) ->
  let farm := br_farm_id rec in
  let sow := br_sow_id rec in
  getBreedingHistoryByPigId farm sow s
  = (s, match history_rows farm sow s with
        | [] => inr (ReferenceError "recordId is not defined")
        | rows => inl rows
        end)
  /\ getBreedingHistoryByPigId farm sow s'
     = (s', inl (app (history_rows farm sow s) [rec])).
Proof.
  intros H farm sow. apply createBreedingRecord_returns in H.
  destruct H as (_ & _ & _ & _ & Hdel & Hrecs & _).
  unfold getBreedingHistoryByPigId, getBreedingHistoryByPigId_try.
  cbv [bind query]. split.
  - destruct (history_rows farm sow s); reflexivity.
  - assert (Hh : history_rows farm sow s' = app (history_rows farm sow s) [rec]).
    { unfold history_rows. rewrite Hrecs, filter_app. f_equal. cbn.
      subst farm sow. rewrite !String.eqb_refl, Hdel. reflexivity. }
    rewrite Hh. destruct (history_rows farm sow s); reflexivity.
Qed.

Lemma getBreedingHistoryByPigId_after_mating_witness :
  createBreedingRecord (ex_mating 20089) "user-1" ex_store
  = (ex_store_mated, Return ex_record)
  /\ getBreedingHistoryByPigId "F" "S1" ex_store
     = (ex_store, inr (ReferenceError "recordId is not defined"))
  /\ getBreedingHistoryByPigId "F" "S1" ex_store_mated
     = (ex_store_mated, inl [ex_record]).
Proof.
  assert (H : createBreedingRecord (ex_mating 20089) "user-1" ex_store
              = (ex_store_mated, Return ex_record)) by (vm_compute; reflexivity).
  split; [exact H|].
  destruct (getBreedingHistoryByPigId_after_mating _ _ _ _ _ H) as [H1 H2].
  split; [exact H1 | exact H2].
Defined.

(** ** Registering a litter: what the checks establish *)

Lemma forEach_check_litter_size_ok (batch : list Piglet)
  (rows : list BreedingRecord) (s s1 : Store) :
  forEach (check_litter_size batch) rows s = (s1, Return tt) ->
  Forall (fun r =>
            Z.of_nat (List.length (piglets_of_record (br_id r) s))
            + Z.of_nat (batch_count batch (JStr (br_id r)))
            <= match br_number_of_piglets r with Some n => n | None => 0 end + 1)
    rows.
Proof.
  induction rows as [|r rows IH]; intros H; [constructor|].
  cbn [forEach] in H. apply bind_inv in H.
  destruct H as (s0 & [[]|e] & Hc & H); [|destruct H; discriminate].
  pose proof (readonly_check_litter_size _ _ _ _ _ Hc) as ->.
  constructor; [|exact (IH H)].
  unfold check_litter_size in Hc. cbv [bind query] in Hc.
  peel Hc; [discriminate|]. apply Z.ltb_ge in Heqb. lia.
Qed.

Lemma validate_piglets_checked (piglets : PigletBatch) (farm_id : string)
  (s s' : Store) (first : Piglet) (batch : list Piglet)
  (rows : list BreedingRecord) :
  validate_piglets piglets farm_id s = (s', Return (first, batch, rows)) ->
  rows = filter (fun r => any_of (dedupe (List.map pg_breeding_record_id batch))
                            (br_id r)
                          && String.eqb (br_farm_id r) farm_id
                          && negb (br_is_deleted r)) (breeding_records s)
  /\ Forall (fun r =>
               Z.of_nat (List.length (piglets_of_record (br_id r) s))
               + Z.of_nat (batch_count batch (JStr (br_id r)))
               <= match br_number_of_piglets r with Some n => n | None => 0 end + 1)
       rows
  /\ stored_duplicates farm_id (filter truthy (List.map pg_piglet_number batch)) s
     = [].
Proof.
  intros H. unfold validate_piglets in H.
  unfold bind at 1, query at 1 in H.
  peel H; [discriminate|].
  destruct (pigletz piglets) as [[|p rest]|]; try discriminate.
  apply bind_inv in H. destruct H as (s1 & [[]|e] & H1 & H); [|now destruct H].
  apply (readonly_forEach _ _ readonly_check_required) in H1. subst s1.
  unfold bind at 1, query at 1 in H.
  peel H; [discriminate|].
  apply bind_inv in H. destruct H as (s1 & [[]|e] & H1 & H); [|now destruct H].
  pose proof (readonly_forEach _ _ (readonly_check_litter_size (p :: rest))
                _ _ _ H1) as ->.
  apply forEach_check_litter_size_ok in H1.
  peel H; [discriminate|].
  unfold bind at 1, query at 1 in H.
  peel H; [discriminate|].
  apply bind_inv in H. destruct H as (s2 & [[]|e] & H2 & H); [|now destruct H].
  unfold ret in H. injection H as _ <- <- <-.
  split; [reflexivity|]. split; [exact H1|].
  destruct (stored_duplicates _ _ s); [reflexivity|discriminate].
Qed.

(** ** Registering a litter: what a successful loop has written *)

Lemma insert_piglet_returns (farm_id : string) (batch : list Piglet)
  (rows : list BreedingRecord) (piglet : Piglet) (s s' : Store)
  (ip : InsertedPiglet) :
  insert_piglet farm_id batch rows piglet s = (s', Return ip) ->
  (exists r, In r rows
             /\ pg_breeding_record_id piglet = JStr (br_id r)
             /\ pg_parent_female_id piglet = JStr (br_sow_id r))
  /\ (exists row, piglet_records s' = app (piglet_records s) [row]
                  /\ registered farm_id piglet row)
  /\ breeding_records s' = breeding_records s
  /\ pigs s' = pigs s
  /\ alerts s' = alerts s
  /\ now s' = now s.
Proof.
  intros H. unfold insert_piglet in H. cbv zeta in H.
  destruct (find _ rows) as [r|] eqn:Ef; [|discriminate].
  cbv beta iota in H.
  peel H; [discriminate|].
  apply negb_false_iff in Heqb.
  apply find_some in Ef as [Hin Hid].
  unfold strict_eq_str in Hid, Heqb.
  apply JsVal_eqb_eq in Hid. apply JsVal_eqb_eq in Heqb.
  split; [exists r; repeat split; [exact Hin | now symmetry | now symmetry]|].
  cbv [bind query] in H.
  match type of H with context [if ?c then ret tt else _] =>
    destruct c eqn:? end;
    destruct (pg_actual_birth_date piglet) eqn:Ed;
    cbv [bind uuidv4 exec ret throw] in H; try discriminate;
    injection H as <- _;
    (split; [eexists; split; [reflexivity|];
             unfold registered, weaning_of; rewrite ?Ed; cbn;
             repeat split; reflexivity|]);
    repeat split; reflexivity.
Qed.

Lemma insert_all_returns (farm_id : string) (batch : list Piglet)
  (rows : list BreedingRecord) (todo : list Piglet) :
  forall (s s' : Store) (ips : list InsertedPiglet),
    insert_all farm_id batch rows todo s = (s', Return ips) ->
    List.length ips = List.length todo
    /\ Forall (fun p => exists r, In r rows
                                  /\ pg_breeding_record_id p = JStr (br_id r)
                                  /\ pg_parent_female_id p = JStr (br_sow_id r))
         todo
    /\ (exists kept, piglet_records s' = app (piglet_records s) kept
                     /\ Forall2 (registered farm_id) todo kept)
    /\ breeding_records s' = breeding_records s
    /\ pigs s' = pigs s
    /\ alerts s' = alerts s
    /\ now s' = now s.
Proof.
  induction todo as [|p rest IH]; intros s s' ips H; cbn [insert_all] in H.
  - unfold ret in H. injection H as <- <-.
    split; [reflexivity|]. split; [constructor|].
    split; [exists []; rewrite app_nil_r; split; [reflexivity|constructor]|].
    repeat split; reflexivity.
  - apply bind_inv in H. destruct H as (s1 & [ip|e] & H1 & H);
      [|destruct H; discriminate].
    apply insert_piglet_returns in H1.
    destruct H1 as (Hr & (row & Hrow & Hreg) & Hb1 & Hp1 & Ha1 & Hn1).
    apply bind_inv in H. destruct H as (s2 & [l|e] & H2 & H);
      [|destruct H; discriminate].
    unfold ret in H. injection H as <- <-.
    apply IH in H2.
    destruct H2 as (Hlen & Hall & (kept & Hk & Hregs) & Hb2 & Hp2 & Ha2 & Hn2).
    split; [cbn; lia|]. split; [constructor; assumption|].
    split.
    { exists (row :: kept). split; [|constructor; assumption].
      rewrite Hk, Hrow, <- app_assoc. reflexivity. }
    repeat split; congruence.
Qed.

Lemma relocate_alert_returns (farm_id userId : string) (first : Piglet)
  (s s' : Store) :
  relocate_alert farm_id userId first s = (s', Return tt) ->
  piglet_records s' = piglet_records s
  /\ breeding_records s' = breeding_records s
  /\ exists a,
       alerts s' = app (alerts s) [a]
       /\ al_name a = "Relocate Piglets for " ++ js_to_string (pg_parent_female_id first)
       /\ al_type a = "birth"
       /\ al_status a = pending
       /\ al_pig_id a = sql_text (pg_parent_female_id first)
       /\ exists birth,
            match pg_actual_birth_date first with
            | DUndefined => birth = now s
            | v => dayjs v = Some birth
            end
            /\ al_start_date a = getUTCDateString birth + 42
            /\ al_notify_on a
               = [getUTCDateString birth + 41; getUTCDateString birth + 42].
Proof.
  unfold relocate_alert. cbv [bind query]. intros H.
  match type of H with context [createAlert ?spec s] =>
    destruct (createAlert spec s) as [s1 [id|e]] eqn:Hc end;
    [|discriminate].
  unfold ret in H. injection H as <-.
  unfold createAlert in Hc.
  cbn [as_alert_start_date as_notify_on] in Hc.
  assert (Hb : exists birth,
            match pg_actual_birth_date first with
            | DUndefined => Some (now s)
            | v => dayjs v
            end = Some birth).
  { destruct (pg_actual_birth_date first); cbn in Hc |- *;
      try discriminate; eauto. }
  destruct Hb as [birth Hb]. rewrite Hb in Hc.
  cbn [option_map all_dates] in Hc.
  cbv [bind uuidv4 exec ret] in Hc. injection Hc as <- _.
  cbn [piglet_records breeding_records alerts set_alerts bump_uuid].
  split; [reflexivity|]. split; [reflexivity|].
  eexists. split; [reflexivity|].
  cbn [al_name al_type al_status al_pig_id al_start_date al_notify_on alert_row
       as_name as_alert_type as_pig_id].
  repeat (split; [reflexivity|]).
  exists birth. split.
  - destruct (pg_actual_birth_date first); cbn in Hb |- *;
      try discriminate; try congruence.
  - rewrite !getUTCDateString_add_days. split; [reflexivity|].
    replace (getUTCDateString birth + 42 + -1) with (getUTCDateString birth + 41)
      by lia.
    reflexivity.
Qed.

Lemma createPigletRecord_success_inv (piglets : PigletBatch)
  (farm_id userId : string) (s s' : Store) (message : string)
  (data : list InsertedPiglet) :
  createPigletRecord piglets farm_id userId s = (s', Success message data) ->
  exists first batch rows s2,
    validate_piglets piglets farm_id s = (s, Return (first, batch, rows))
    /\ pigletz piglets = Some batch
    /\ hd_error batch = Some first
    /\ incl rows (breeding_records s)
    /\ insert_all farm_id batch rows batch s = (s2, Return data)
    /\ relocate_alert farm_id userId first s2 = (s', Return tt)
    /\ message = nat_to_string (List.length data) ++ " piglets created successfully".
Proof.
  intros H. unfold createPigletRecord in H.
  destruct (createPigletRecord_try piglets farm_id userId s) as [s1 [l|e]] eqn:Ht;
    [|discriminate].
  injection H as <- <- <-. unfold createPigletRecord_try in Ht.
  apply bind_inv in Ht.
  destruct Ht as (s0 & [[[first batch] rows]|e] & Hv & Ht);
    [|destruct Ht; discriminate].
  pose proof (readonly_validate_piglets _ _ _ _ _ Hv) as ->.
  pose proof (validate_piglets_returns _ _ _ _ _ _ _ Hv) as (Hb & Hf & Hincl).
  apply bind_inv in Ht. destruct Ht as (s2 & [ips|e] & Hall & Ht);
    [|destruct Ht; discriminate].
  apply bind_inv in Ht. destruct Ht as (s3 & [[]|e] & Hr & Ht);
    [|destruct Ht; discriminate].
  unfold ret in Ht. injection Ht as <- <-.
  exists first, batch, rows, s2. repeat split; assumption || reflexivity.
Qed.

(** ** Registering a litter: a successful call *)



(** ** Registering a litter: the litter-size bound *)

Lemma In_dedupe (x : JsVal) (l : list JsVal) : In x l -> In x (dedupe l).
Proof.
  induction l as [|a l IH]; [intros []|].
  intros [->|Hin]; cbn [dedupe]; [now left|].
  destruct (JsVal_eqb a x) eqn:E.
  - apply JsVal_eqb_eq in E. subst. now left.
  - right. apply filter_In. split; [exact (IH Hin)|]. rewrite E. reflexivity.
Qed.

Lemma registered_count (farm_id id : string) (todo : list Piglet)
  (kept : list PigletRecord) :
  Forall2 (registered farm_id) todo kept ->
  Forall (fun p => exists r : BreedingRecord,
                     pg_breeding_record_id p = JStr (br_id r)) todo ->
  List.length (filter (fun row => opt_eqb id (pl_breeding_record_id row)
                                  && negb (pl_is_deleted row)) kept)
  = batch_count todo (JStr id).
Proof.
  unfold batch_count. induction 1 as [|p row todo kept Hreg _ IH];
    intros Hall; [reflexivity|].
  inversion Hall as [|? ? [r Hr] Hrest]; subst.
  destruct Hreg as (_ & Hid & _ & _ & _ & Hdel).
  cbn [filter]. rewrite Hid, Hdel, Hr. cbn [sql_text opt_eqb JsVal_eqb negb].
  rewrite andb_true_r, (String.eqb_sym id).
  destruct (String.eqb (br_id r) id); cbn [List.length]; rewrite (IH Hrest);
    reflexivity.
Qed.

(** X12.  After a successful [createPigletRecord], every breeding record of
    the farm that an entry of the batch names has at most one piglet record
    more than its recorded litter size. *)
Theorem createPigletRecord_litter_bound (piglets : PigletBatch)
  (farm_id userId : string) (s s' : Store) (message : string)
  (data : list InsertedPiglet) (r : BreedingRecord) (p : Piglet) :
  createPigletRecord piglets farm_id userId s = (s', Success message data) ->
  In r (breeding_records s) ->
  br_farm_id r = farm_id ->
  br_is_deleted r = false ->
  In p (batch_of piglets) ->
  pg_breeding_record_id p = JStr (br_id r) ->
  litter_bound r s'.
Proof.
  intros H Hr Hfarm Hdel Hp Hid. apply createPigletRecord_success_inv in H.
  destruct H as (first & batch & rows & s2 & Hv & Hb & _ & _ & Hall & Hrel & _).
  unfold batch_of in Hp. rewrite Hb in Hp.
  apply validate_piglets_checked in Hv. destruct Hv as (Hrows & Hlit & _).
  assert (Hin : In r rows).
  { rewrite Hrows. apply filter_In. split; [exact Hr|].
    rewrite Hfarm, Hdel, String.eqb_refl, andb_true_r. cbn [negb].
    rewrite andb_true_r. unfold any_of. apply existsb_exists.
    exists (JStr (br_id r)). split.
    - apply In_dedupe. rewrite <- Hid. apply in_map. exact Hp.
    - cbn. apply String.eqb_refl. }
  rewrite Forall_forall in Hlit. specialize (Hlit r Hin).
  apply insert_all_returns in Hall.
  destruct Hall as (_ & Hm & (kept & Hk & Hreg) & _).
  apply relocate_alert_returns in Hrel. destruct Hrel as (Hpl & _).
  unfold litter_bound, piglets_of_record. rewrite Hpl, Hk, filter_app, length_app.
  rewrite (registered_count farm_id (br_id r) batch kept Hreg).
  - unfold piglets_of_record in Hlit. lia.
  - eapply Forall_impl; [|exact Hm]. intros q (r' & _ & Hq & _). eauto.
Qed.

Lemma createPigletRecord_litter_bound_witness :
  let piglets := {| pigletz := Some [ex_piglet 1 (JStr "S1"); ex_piglet 2 (JStr "S1")] |} in
  let run := createPigletRecord piglets "F" "user-1" ex_store_born in
  exists r,
    success (snd run) = true
    /\ hd_error (breeding_records ex_store_born) = Some r
    /\ br_id r = "uuid-0"
    /\ litter_bound r (fst run).
Proof.
  intros piglets run.
  assert (H : run = (fst run,
                     Success "2 piglets created successfully"
                       [{| ip_id := "uuid-12"; ip_piglet_number := Some "1" |};
                        {| ip_id := "uuid-13"; ip_piglet_number := Some "2" |}]))
    by (vm_compute; reflexivity).
  eexists. split; [vm_compute; reflexivity|].
  split; [vm_compute; reflexivity|]. split; [reflexivity|].
  apply (createPigletRecord_litter_bound piglets "F" "user-1" ex_store_born
           (fst run) _ _ _ (ex_piglet 1 (JStr "S1")) H).
  - vm_compute. left. reflexivity.
  - reflexivity.
  - reflexivity.
  - left. reflexivity.
  - reflexivity.
Defined.

(** ** Registering a litter: a number that is already stored *)

Lemma truthy_sql_text (v : JsVal) : truthy v = true -> exists t, sql_text v = Some t.
Proof. destruct v as [| |[]| |]; cbn; intros H; try discriminate; eauto. Qed.

(** X13.  When an entry of the batch carries a piglet number that a piglet
    record of the farm, not deleted, already has, [createPigletRecord] fails
    and writes nothing. *)
Theorem createPigletRecord_stored_duplicate (piglets : PigletBatch)
  (farm_id userId : string) (s : Store) (p : Piglet) (q : PigletRecord) :
  In p (batch_of piglets) ->
  truthy (pg_piglet_number p) = true ->
  In q (piglet_records s) ->
  pl_farm_id q = farm_id ->
  pl_is_deleted q = false ->
  pl_piglet_number q = sql_text (pg_piglet_number p) ->
  exists message,
    createPigletRecord piglets farm_id userId s = (s, Failure message).
Proof.
  intros Hp Ht Hq Hfarm Hdel Hnum.
  assert (Hthrow : exists e, validate_piglets piglets farm_id s = (s, Throw e)).
  { destruct (validate_piglets piglets farm_id s) as [s1 o] eqn:Hv.
    pose proof (readonly_validate_piglets _ _ _ _ _ Hv) as ->.
    destruct o as [[[first batch] rows]|e]; [|eauto].
    exfalso.
    pose proof (validate_piglets_returns _ _ _ _ _ _ _ Hv) as (Hb & _).
    apply validate_piglets_checked in Hv. destruct Hv as (_ & _ & Hdup).
    unfold batch_of in Hp. rewrite Hb in Hp.
    destruct (truthy_sql_text _ Ht) as [t Hsql].
    assert (Hin : In t (stored_duplicates farm_id
                          (filter truthy (List.map pg_piglet_number batch)) s)).
    { unfold stored_duplicates. apply in_flat_map. exists q. split.
      - apply filter_In. split; [exact Hq|].
        rewrite Hfarm, Hdel, String.eqb_refl. cbn [andb negb].
        rewrite andb_true_r. apply existsb_exists.
        exists (pg_piglet_number p). split.
        + apply filter_In. split; [apply in_map; exact Hp | exact Ht].
        + rewrite Hnum, Hsql. cbn. apply String.eqb_refl.
      - rewrite Hnum, Hsql. now left. }
    rewrite Hdup in Hin. destruct Hin. }
  destruct Hthrow as [e Hv].
  unfold createPigletRecord, createPigletRecord_try. unfold bind at 1.
  rewrite Hv. eexists. reflexivity.
Qed.

Lemma createPigletRecord_stored_duplicate_witness :
  let s := fst (createPigletRecord
                  {| pigletz := Some [ex_piglet 3 (JStr "S1")] |}
                  "F" "user-1" ex_store_born) in
  List.map pl_piglet_number (piglet_records s) = [Some "3"]
  /\ createPigletRecord {| pigletz := Some [ex_piglet 3 (JStr "S1")] |}
       "F" "user-2" s
     = (s, Failure "Duplicate piglet numbers: 3").
Proof.
  intros s. split; [vm_compute; reflexivity|].
  destruct (createPigletRecord_stored_duplicate
              {| pigletz := Some [ex_piglet 3 (JStr "S1")] |} "F" "user-2" s
              (ex_piglet 3 (JStr "S1"))
              (nth 0 (piglet_records s)
                 {| pl_id := ""; pl_breeding_record_id := None; pl_farm_id := "";
                    pl_piglet_number := None; pl_birth_weight := JNull;
                    pl_gender := JNull; pl_color := JNull; pl_status := JNull;
                    pl_weaning_date := None; pl_parent_male_id := JNull;
                    pl_parent_female_id := JNull; pl_notes := JNull;
                    pl_is_deleted := true |}))
    as [m Hm].
  - left. reflexivity.
  - reflexivity.
  - vm_compute. left. reflexivity.
  - reflexivity.
  - reflexivity.
  - reflexivity.
  - vm_compute. reflexivity.
Defined.

(** ** Registering a litter: the birth-history row *)





(** * The middleware *)

Lemma parseTrialPeriod_at_least_1 (TRIAL_PERIOD : option string) :
  1 <= parseTrialPeriod TRIAL_PERIOD.
Proof.
  unfold parseTrialPeriod. destruct (parseInt10 _); lia.
Qed.

Lemma authMiddleware_authenticated
  (jwt_verify : string -> option (option string)) (TRIAL_PERIOD : option string)
  (authorization : JsOpt string) (db : AuthDb) (user : User)
  (ac : AccessControl) :
  authMiddleware jwt_verify TRIAL_PERIOD authorization db = Authenticated user ac ->
  ac = access_control TRIAL_PERIOD (current_timestamp db) user
  /\ exists token userId,
       second_word (str_of authorization) = Some token
       /\ jwt_verify token = Some userId
       /\ hd_error (user_rows userId db) = Some user
       /\ forall b, In b (token_blacklist db) -> bl_token b = token ->
            bl_is_deleted b = false -> bl_expires_at b <= current_timestamp db.
Proof.
  unfold authMiddleware. intros H.
  destruct (negb (truthy_str authorization) || _); [discriminate|].
  destruct (second_word (str_of authorization)) as [token|]; [|discriminate].
  cbv zeta in H.
  destruct (0 <? List.length _)%nat eqn:Eb; [discriminate|].
  destruct (jwt_verify token) as [userId|] eqn:Ej; [|discriminate].
  destruct (user_rows userId db) as [|u rest] eqn:Eu; [discriminate|].
  injection H as <- <-. split; [reflexivity|].
  exists token, userId.
  split; [reflexivity|]. split; [exact Ej|]. split; [rewrite Eu; reflexivity|].
  intros b Hin Ht Hd.
  destruct (Z.lt_ge_cases (current_timestamp db) (bl_expires_at b)) as [Hlt|Hge];
    [|exact Hge].
  exfalso. apply Nat.ltb_ge in Eb.
  assert (Hf : In b (filter (fun b => String.eqb (bl_token b) token
                                      && (current_timestamp db <? bl_expires_at b)
                                      && negb (bl_is_deleted b))
                       (token_blacklist db))).
  { apply filter_In. split; [exact Hin|].
    rewrite Ht, String.eqb_refl, Hd. apply Z.ltb_lt in Hlt. rewrite Hlt.
    reflexivity. }
  destruct (filter _ (token_blacklist db)); [destruct Hf | cbn in Eb; lia].
Qed.

(** X15.  Whatever TRIAL_PERIOD holds (unset, zero, negative, no number),
    the trial lasts at least one day: a user that [authMiddleware] has
    authenticated within 24 hours of the creation of the farm has an active
    trial and passes [requireActiveSubscription()]. *)
Theorem trial_covers_the_first_day
  (jwt_verify : string -> option (option string)) (TRIAL_PERIOD : option string)
  (authorization : JsOpt string) (db : AuthDb) (user : User)
  (ac : AccessControl) (created : Z) :
  authMiddleware jwt_verify TRIAL_PERIOD authorization db = Authenticated user ac ->
  farm_created_at user = Some created ->
  current_timestamp db <= created + DAY_IN_MS ->
  1 <= trialPeriodDays ac
  /\ isTrialActive ac = true
  /\ requireActiveSubscription no_options (request_of user ac) = Continue.
Proof.
  intros H Hc Hnow. apply authMiddleware_authenticated in H.
  destruct H as [-> _].
  pose proof (parseTrialPeriod_at_least_1 TRIAL_PERIOD) as Hge.
  assert (Ht : isTrialActive
                 (access_control TRIAL_PERIOD (current_timestamp db) user) = true).
  { unfold access_control. cbn. rewrite Hc. apply Z.leb_le.
    unfold DAY_IN_MS in *. nia. }
  split; [exact Hge|]. split; [exact Ht|].
  unfold requireActiveSubscription, request_of, no_options.
  cbn [req_user req_accessControl allowRoles allowDuringTrial].
  destruct (str_nonempty (role_name user) && _); [reflexivity|].
  rewrite Ht. cbn [andb]. rewrite orb_true_r. reflexivity.
Qed.

Lemma trial_covers_the_first_day_witness :
  let db := ex_auth_db (20000 * DAY_IN_MS + 3600000) in
  let ac := access_control (Some "0") (current_timestamp db) ex_user in
  authMiddleware ex_jwt_verify (Some "0") (Val "Bearer t1") db
  = Authenticated ex_user ac
  /\ 1 <= trialPeriodDays ac
  /\ isTrialActive ac = true
  /\ requireActiveSubscription no_options (request_of ex_user ac) = Continue.
Proof.
  intros db ac. split; [vm_compute; reflexivity|].
  apply (trial_covers_the_first_day ex_jwt_verify (Some "0") (Val "Bearer t1")
           db ex_user ac (20000 * DAY_IN_MS)).
  - vm_compute; reflexivity.
  - reflexivity.
  - vm_compute; discriminate.
Defined.

(** X16.  The access rule of the two middlewares together.  A user that
    [authMiddleware] has authenticated passes [requireActiveSubscription()]
    exactly when the role is "admin" or "superadmin", or the subscription
    ends now or later, or the user row has no farm creation date (no farm
    yet), or the farm was created at most the trial period ago; otherwise the request ends with the
    forbidden error that names the end of the trial. *)
Theorem access_rule
  (jwt_verify : string -> option (option string)) (TRIAL_PERIOD : option string)
  (authorization : JsOpt string) (db : AuthDb) (user : User)
  (ac : AccessControl) :
  authMiddleware jwt_verify TRIAL_PERIOD authorization db = Authenticated user ac ->
  let now_ms := current_timestamp db in
  let allowed :=
    In (role_name user) ["admin"; "superadmin"]
    \/ (exists e, subscription_end user = Some e /\ now_ms <= e)
    \/ farm_created_at user = None
    \/ (exists c, farm_created_at user = Some c
                  /\ now_ms <= c + parseTrialPeriod TRIAL_PERIOD * DAY_IN_MS) in
  (requireActiveSubscription no_options (request_of user ac) = Continue
   <-> allowed)
  /\ (~ allowed ->
      requireActiveSubscription no_options (request_of user ac)
      = NextError (ForbiddenError (TrialExpiredText (trialEndsAt ac)))).
Proof.
  intros H now_ms allowed. apply authMiddleware_authenticated in H.
  destruct H as [-> _]. fold now_ms.
  unfold requireActiveSubscription, request_of, no_options.
  cbn [req_user req_accessControl allowRoles allowDuringTrial customMessage
       truthy_str].
  assert (Hrole : str_nonempty (role_name user)
                  && existsb (String.eqb (role_name user)) ["admin"; "superadmin"]
                  = true
                  <-> In (role_name user) ["admin"; "superadmin"]).
  { split.
    - intros Hr. apply andb_prop in Hr as [_ Hr].
      apply existsb_exists in Hr. destruct Hr as (x & Hin & Hx).
      apply String.eqb_eq in Hx. now subst.
    - intros Hin. apply andb_true_intro. split.
      + destruct Hin as [<-|[<-|[]]]; reflexivity.
      + apply existsb_exists. exists (role_name user).
        split; [exact Hin | apply String.eqb_refl]. }
  assert (Hsub : hasActiveSubscription (access_control TRIAL_PERIOD now_ms user)
                 = true
                 <-> exists e, subscription_end user = Some e /\ now_ms <= e).
  { unfold access_control. cbn. destruct (subscription_end user) as [e|].
    - rewrite Z.leb_le. split; [eauto | intros (e' & He & Hle); congruence].
    - split; [discriminate | intros (e' & He & _); discriminate]. }
  assert (Htrial : isTrialActive (access_control TRIAL_PERIOD now_ms user) = true
                   <-> farm_created_at user = None
                       \/ exists c, farm_created_at user = Some c
                            /\ now_ms <= c + parseTrialPeriod TRIAL_PERIOD * DAY_IN_MS).
  { unfold access_control. cbn. destruct (farm_created_at user) as [c|].
    - rewrite Z.leb_le. split.
      + intros Hle. right. eauto.
      + intros [Hn|(c' & Hc & Hle)]; [discriminate | congruence].
    - split; [now left | reflexivity]. }
  destruct (str_nonempty (role_name user) && _) eqn:Er.
  { split; [|intros Hn; exfalso; apply Hn; left; apply Hrole; reflexivity].
    split; [intros _; left; apply Hrole; reflexivity | reflexivity]. }
  destruct (hasActiveSubscription _) eqn:Es.
  { cbn [orb].
    split; [|intros Hn; exfalso; apply Hn; right; left; apply Hsub; reflexivity].
    split; [intros _; right; left; apply Hsub; reflexivity | reflexivity]. }
  destruct (isTrialActive _) eqn:Et.
  { cbn [orb andb].
    split; [|intros Hn; exfalso; apply Hn; right; right; apply Htrial; reflexivity].
    split; [intros _; right; right; apply Htrial; reflexivity | reflexivity]. }
  cbn [orb andb]. split; [|reflexivity].
  split; [discriminate|].
  intros [Hr|[Hs|Ht]].
  - apply Hrole in Hr. discriminate.
  - apply Hsub in Hs. discriminate.
  - apply Htrial in Ht. discriminate.
Qed.

Lemma access_rule_witness :
  let db := ex_auth_db (20031 * DAY_IN_MS) in
  let ac := access_control None (current_timestamp db) ex_user in
  authMiddleware ex_jwt_verify None (Val "Bearer t1") db
  = Authenticated ex_user ac
  /\ requireActiveSubscription no_options (request_of ex_user ac)
     = NextError (ForbiddenError (TrialExpiredText (Some (20030 * DAY_IN_MS)))).
Proof.
  intros db ac.
  assert (H : authMiddleware ex_jwt_verify None (Val "Bearer t1") db
              = Authenticated ex_user ac) by (vm_compute; reflexivity).
  split; [exact H|].
  destruct (access_rule ex_jwt_verify None (Val "Bearer t1") db ex_user ac H)
    as [_ Hno].
  apply Hno. intros [Hr|[(e & He & _)|[Hn|(c & Hc & Hle)]]].
  - destruct Hr as [Hr|[Hr|[]]]; discriminate.
  - discriminate.
  - discriminate.
  - injection Hc as <-. vm_compute in Hle. apply Hle. reflexivity.
Defined.

(** X17.  A token that is on the blacklist, with an entry that is not
    deleted and has not expired, is rejected with "Token is blacklisted"
    before the token is verified: the answer is the same whatever the JWT
    check would say. *)
Theorem blacklisted_token_rejected
  (jwt_verify : string -> option (option string)) (TRIAL_PERIOD : option string)
  (token : string) (db : AuthDb) (b : BlacklistRow) :
  up_to_space token = token ->
  In b (token_blacklist db) ->
  bl_token b = token ->
  bl_is_deleted b = false ->
  current_timestamp db < bl_expires_at b ->
  authMiddleware jwt_verify TRIAL_PERIOD (Val ("Bearer " ++ token)) db
  = AuthFailed (UnauthorizedError "Token is blacklisted").
Proof.
  intros Htok Hin Ht Hd Hlt. unfold authMiddleware.
  replace (negb (truthy_str (Val ("Bearer " ++ token)))
           || negb (String.prefix "Bearer " (str_of (Val ("Bearer " ++ token)))))
    with false by (destruct token; reflexivity).
  replace (second_word (str_of (Val ("Bearer " ++ token))))
    with (Some (up_to_space token)) by reflexivity.
  rewrite Htok. cbv zeta.
  assert (Hf : In b (filter (fun b => String.eqb (bl_token b) token
                                      && (current_timestamp db <? bl_expires_at b)
                                      && negb (bl_is_deleted b))
                       (token_blacklist db))).
  { apply filter_In. split; [exact Hin|].
    rewrite Ht, String.eqb_refl, Hd. apply Z.ltb_lt in Hlt. rewrite Hlt.
    reflexivity. }
  destruct (filter _ (token_blacklist db)); [destruct Hf | reflexivity].
Qed.

Lemma blacklisted_token_rejected_witness :
  authMiddleware ex_jwt_verify None (Val "Bearer t0")
    (ex_auth_db (20005 * DAY_IN_MS))
  = AuthFailed (UnauthorizedError "Token is blacklisted").
Proof.
  apply (blacklisted_token_rejected ex_jwt_verify None "t0"
           (ex_auth_db (20005 * DAY_IN_MS))
           {| bl_token := "t0"; bl_expires_at := 20010 * DAY_IN_MS;
              bl_is_deleted := false |}).
  - reflexivity.
  - left. reflexivity.
  - reflexivity.
  - reflexivity.
  - vm_compute. reflexivity.
Defined.



